(** * GPTService: response validation and option shuffle

    The class [GPTService] of src/services/gptService.ts, as the repository
    keeps it in src/vite-env.d.ts.

    A shallow embedding of the service class: JavaScript values as an
    inductive type, property reads and method calls as functions into an
    error monad that also records the observable effects (console.error,
    alert, the onChunk callback), and the answers of the environment (fetch,
    response.json(), Math.random()) as explicit inputs. *)

From Stdlib Require Import String Ascii QArith.
From stdpp Require Import base option list numbers.

Local Open Scope nat_scope.
Local Set Warnings "-register-all".

(** ** Strings

    A JavaScript string is a sequence of UTF-16 code units; [length] on a
    string counts code units. *)

Definition str : Type := list N.

Definition lit (s : string) : str := N_of_ascii <$> list_ascii_of_string s.

Definition str_eqb (a b : str) : bool := bool_decide (a = b).

(** WhiteSpace and LineTerminator code units of ECMAScript, the ones
    [String.prototype.trim] strips. *)
Definition is_space (c : N) : bool :=
  ((9 <=? c) && (c <=? 13) || (c =? 32) || (c =? 160) || (c =? 5760)
   || (8192 <=? c) && (c <=? 8202) || (c =? 8232) || (c =? 8233)
   || (c =? 8239) || (c =? 8287) || (c =? 12288) || (c =? 65279))%N.

Fixpoint trim_start (s : str) : str :=
  match s with
  | c :: r => if is_space c then trim_start r else s
  | [] => []
  end.

Definition trim (s : str) : str := reverse (trim_start (reverse (trim_start s))).

(** ** Numbers

    A finite double is a rational; what the code does with numbers
    (comparison with 0 and 3, strict equality with an array index) is exact
    on them. *)

Inductive number : Type :=
| Fin (q : Q)
| PosInf
| NegInf
| NaN.

Definition num_of_nat (n : nat) : number := Fin (inject_Z (Z.of_nat n)).
Definition num_of_Z (z : Z) : number := Fin (inject_Z z).

Definition Qlt_bool (a b : Q) : bool := negb (Qle_bool b a).

(** [a < c] and [a > c] for a finite constant [c]; every comparison with NaN
    is false. *)
Definition num_lt (a : number) (c : Q) : bool :=
  match a with
  | Fin q => Qlt_bool q c
  | NegInf => true
  | PosInf | NaN => false
  end.

Definition num_gt (a : number) (c : Q) : bool :=
  match a with
  | Fin q => Qlt_bool c q
  | PosInf => true
  | NegInf | NaN => false
  end.

(** [a === b] on numbers. *)
Definition num_strict_eq (a b : number) : bool :=
  match a, b with
  | Fin p, Fin q => Qeq_bool p q
  | PosInf, PosInf | NegInf, NegInf => true
  | _, _ => false
  end.

Definition is_integer (a : number) : Prop :=
  match a with
  | Fin q => exists z : Z, (q == inject_Z z)%Q
  | _ => False
  end.

(** ** Values *)

Inductive value : Type :=
| VUndefined
| VNull
| VBool (b : bool)
| VNum (n : number)
| VStr (s : str)
| VArr (items : list value)
| VObj (fields : list (str * value)).

Definition truthy (v : value) : bool :=
  match v with
  | VUndefined | VNull => false
  | VBool b => b
  | VNum (Fin q) => negb (Qeq_bool q 0)
  | VNum NaN => false
  | VNum _ => true
  | VStr s => negb (str_eqb s [])
  | VArr _ | VObj _ => true
  end.

Definition nullish (v : value) : bool :=
  match v with
  | VUndefined | VNull => true
  | _ => false
  end.

(** [a || b] *)
Definition or_else (a b : value) : value := if truthy a then a else b.

Definition is_array (v : value) : bool :=
  match v with VArr _ => true | _ => false end.

Definition is_string (v : value) : bool :=
  match v with VStr _ => true | _ => false end.

Definition is_number (v : value) : bool :=
  match v with VNum _ => true | _ => false end.

(** Own properties of an object, in insertion order. *)
Fixpoint field (k : str) (fs : list (str * value)) : option value :=
  match fs with
  | [] => None
  | (k', v) :: r => if str_eqb k k' then Some v else field k r
  end.

(** [{...fs, k: v}]: an existing key keeps its place and takes the new value,
    a new key goes last. *)
Fixpoint set_field (k : str) (v : value) (fs : list (str * value)) : list (str * value) :=
  match fs with
  | [] => [(k, v)]
  | (k', v') :: r => if str_eqb k k' then (k, v) :: r else (k', v') :: set_field k v r
  end.

(** [ToString(v)], [ToNumber(v)] and [v.toString()] on a value that is not
    null or undefined. They return on a primitive value. On an object they
    look for a method [toString]: an own property of that name hides
    [Object.prototype.toString], and in a value that comes from JSON it is
    never a function, so the conversion raises a TypeError; without it the
    object converts. An array converts through [join], which converts each
    element that is not null or undefined. *)
Fixpoint convertible (v : value) : bool :=
  match v with
  | VArr items => forallb convertible items
  | VObj fs => match field (lit "toString") fs with
               | Some _ => false
               | None => true
               end
  | _ => true
  end.

(** ** Errors, effects and the two monads

    [error] has one constructor per message thrown in the source and three
    for what the runtime raises. *)

Inductive error : Type :=
| TypeError
| SyntaxError
| NetworkError
| ApiRequestFailed (status : Z)
| FailedToMakeApiRequest
| EmptyResponseFromApi
| InvalidJsonResponse
| InvalidResponseStructure
| FailedToGenerateExploreContent
| EmptyResponseReceived
| GeneratedQuestionFailedValidation
| FailedToGenerateValidQuestion
| NoContentReceived
| FailedToParseApiResponse
| OnlyValidQuestions (n : nat)
| FailedToGenerateTestQuestions (cause : error)
| StreamRequestFailed (status : Z)
| FailedToStreamContent.

Inductive result (A : Type) : Type :=
| Ok (a : A)
| Throw (e : error).
Arguments Ok {A} a.
Arguments Throw {A} e.

#[global] Instance result_ret : MRet result := fun _ a => Ok a.
#[global] Instance result_bind : MBind result := fun _ _ f m =>
  match m with
  | Ok a => f a
  | Throw e => Throw e
  end.

(** What a call does that its caller or the user can observe. [Alert v] is
    the alert whose text is built from [Math.ceil(v)]; [OnChunk] is one call
    of the callback with its [text], [topics] and [questions], a callback
    that returns. *)
Inductive event : Type :=
| Log (label : string)
| LogError (label : string) (e : error)
| LogValue (label : string) (v : value)
| Alert (retryAfter : value)
| OnChunk (text topics questions : value).

Record M (A : Type) : Type := Run { trace : list event; outcome : result A }.
Arguments Run {A} trace outcome.
Arguments trace {A} m.
Arguments outcome {A} m.

#[global] Instance M_ret : MRet M := fun _ a => Run [] (Ok a).
#[global] Instance M_bind : MBind M := fun _ _ f m =>
  match outcome m with
  | Ok a => Run (trace m ++ trace (f a)) (outcome (f a))
  | Throw e => Run (trace m) (Throw e)
  end.

Definition lift {A} (r : result A) : M A := Run [] r.
Definition throw {A} (e : error) : M A := Run [] (Throw e).
Definition emit (ev : event) : M unit := Run [ev] (Ok tt).

(** [try { m } catch (e) { handler e }] *)
Definition try_catch {A} (m : M A) (handler : error -> M A) : M A :=
  match outcome m with
  | Ok a => m
  | Throw e => Run (trace m ++ trace (handler e)) (outcome (handler e))
  end.

(** ** Property reads and method calls *)

(** [v.k] for a name [k] that is no built-in property of strings, numbers,
    booleans or arrays (every name the service reads this way is of that
    kind): a TypeError on null and undefined, the own property of an object,
    undefined otherwise. *)
Definition get (v : value) (k : string) : result value :=
  match v with
  | VUndefined | VNull => Throw TypeError
  | VObj fs => Ok (default VUndefined (field (lit k) fs))
  | _ => Ok VUndefined
  end.

(** [v?.k] *)
Definition get_opt (v : value) (k : string) : value :=
  match v with
  | VObj fs => default VUndefined (field (lit k) fs)
  | _ => VUndefined
  end.

(** [v[0]] on a value that is not null or undefined. *)
Definition index0 (v : value) : value :=
  match v with
  | VArr (x :: _) => x
  | VStr (c :: _) => VStr [c]
  | VObj fs => default VUndefined (field (lit "0") fs)
  | _ => VUndefined
  end.

(** [v?.trim()]: undefined when [v] is null or undefined, the trimmed string
    when [v] is a string; on any other value [v.trim] is not a function and
    the call raises. *)
Definition opt_trim (v : value) : result value :=
  match v with
  | VUndefined | VNull => Ok VUndefined
  | VStr s => Ok (VStr (trim s))
  | _ => Throw TypeError
  end.

(** ** validateQuestionFormat *)

(** The test [!v?.trim()], keeping the string when it passes: [Ok None] when
    the test is true ([v] is null, undefined or a string that trims to the
    empty string), [Ok (Some s)] when [v] is the string [s] and the test is
    false. *)
Definition nonblank (v : value) : result (option str) :=
  t ← opt_trim v;
  Ok (if truthy t then match v with VStr s => Some s | _ => None end else None).

(** [opts.some(opt => !opt?.trim())], left to right, stopping at the first
    hit. *)
Fixpoint some_blank (opts : list value) : result bool :=
  match opts with
  | [] => Ok false
  | opt :: rest =>
      t ← nonblank opt;
      match t with
      | None => Ok true
      | Some _ => some_blank rest
      end
  end.

(** SameValueZero, the equality of [Set]. Arrays and objects are compared by
    reference; two of them at different places of a parsed response are
    different references. *)
Definition same_value_zero (a b : value) : bool :=
  match a, b with
  | VUndefined, VUndefined | VNull, VNull => true
  | VBool x, VBool y => bool_decide (x = y)
  | VNum NaN, VNum NaN => true
  | VNum x, VNum y => num_strict_eq x y
  | VStr x, VStr y => str_eqb x y
  | _, _ => false
  end.

(** [new Set(xs).size] *)
Fixpoint set_size (xs : list value) : nat :=
  match xs with
  | [] => 0
  | x :: rest => if existsb (same_value_zero x) rest then set_size rest else S (set_size rest)
  end.

(** The body of the [try] block. *)
Definition validation_checks (question : value) : result bool :=
  (* if (!question.text?.trim()) return false; *)
  text ← get question "text";
  text ← nonblank text;
  match text with None => Ok false | Some text =>
  (* if (!Array.isArray(question.options) || question.options.length !== 4) return false; *)
  options ← get question "options";
  match options with VArr options =>
  if negb (length options =? 4) then Ok false else
  (* if (question.options.some(opt => !opt?.trim())) return false; *)
  blank ← some_blank options;
  if (blank : bool) then Ok false else
  (* if (typeof question.correctAnswer !== 'number' ||
         question.correctAnswer < 0 || question.correctAnswer > 3) return false; *)
  correctAnswer ← get question "correctAnswer";
  match correctAnswer with VNum correctAnswer =>
  if num_lt correctAnswer 0 || num_gt correctAnswer 3 then Ok false else
  (* if (!question.explanation?.correct?.trim() ||
         !question.explanation?.key_point?.trim()) return false; *)
  explanation ← get question "explanation";
  correct ← nonblank (get_opt explanation "correct");
  match correct with None => Ok false | Some correct =>
  key_point ← nonblank (get_opt explanation "key_point");
  match key_point with None => Ok false | Some key_point =>
  (* if (question.text.length < 10) return false; *)
  if length text <? 10 then Ok false else
  (* if (question.options.length !== new Set(question.options).size) return false; *)
  if negb (length options =? set_size options) then Ok false else
  (* if (question.explanation.correct.length < 5 ||
         question.explanation.key_point.length < 5) return false; *)
  if (length correct <? 5) || (length key_point <? 5) then Ok false else
  Ok true
  end end
  | _ => Ok false end
  | _ => Ok false end
  end.

Definition validateQuestionFormat (question : value) : M bool :=
  try_catch (lift (validation_checks question))
    (fun error => _ ← emit (LogError "Validation error:" error); mret false).

(** ** shuffleOptionsAndAnswer *)

(** The elements of [optionsWithIndex]. *)
Record tagged : Type := Tagged { text : value; isCorrect : bool }.

(** [idx === v] for an array index [idx]. *)
Definition strict_eq_index (idx : nat) (v : value) : bool :=
  match v with
  | VNum n => num_strict_eq (num_of_nat idx) n
  | _ => false
  end.

(** One result of [Math.random()]: the number [num/den] of [0, 1). The code
    uses a draw through [Math.floor(r * n)] only, and every index below [n]
    is the floor of some draw. The code takes the floor of the product as
    rounded to a double, which stays below [n] and for some draws is the
    integer just above the exact product; [num/den] then stands for a number
    of [0, 1) whose exact product has that floor. *)
Record draw : Type := Draw { num : nat; den : nat; in_unit : (num <? den) = true }.

(** [Math.floor(r * n)] *)
Definition floor_times (r : draw) (n : nat) : nat := num r * n / den r.

(** [[a[i], a[j]] = [a[j], a[i]]]. The loop only swaps places inside the
    array, where both reads find an element. *)
Definition swap {A} (i j : nat) (a : list A) : list A :=
  match a !! j, a !! i with
  | Some x, Some y => <[j := y]> (<[i := x]> a)
  | _, _ => a
  end.

(** [for (let i = ...; i > 0; i--) { const j = Math.floor(Math.random() * (i + 1)); swap }],
    [rand k] being the result of the [k]-th call of [Math.random], [calls]
    the number of calls made so far. *)
Fixpoint fisher_yates {A} (rand : nat -> draw) (calls i : nat) (a : list A) : list A :=
  match i with
  | 0 => a
  | S i' => fisher_yates rand (S calls) i' (swap i (floor_times (rand calls) (i + 1)) a)
  end.

(** [a.findIndex(p)] *)
Definition findIndex {A} (p : A -> bool) (a : list A) : Z :=
  match list_find (fun x => p x = true) a with
  | Some (i, _) => Z.of_nat i
  | None => (-1)%Z
  end.

(** The own properties [{...v}] copies. Only an object is spread here: a
    value with an [options] array is one. *)
Definition spread (v : value) : list (str * value) :=
  match v with
  | VObj fs => fs
  | _ => []
  end.

(** [optionsWithIndex] after the [map] and the loop. *)
Definition shuffled_tagged (rand : nat -> draw) (correctAnswer : value) (options : list value)
    : list tagged :=
  let optionsWithIndex :=
    imap (fun idx opt => Tagged opt (strict_eq_index idx correctAnswer)) options in
  fisher_yates rand 0 (length optionsWithIndex - 1) optionsWithIndex.

Definition shuffleOptionsAndAnswer (rand : nat -> draw) (question : value) : result value :=
  options ← get question "options";
  match options with
  | VArr options =>
      correctAnswer ← get question "correctAnswer";
      let optionsWithIndex := shuffled_tagged rand correctAnswer options in
      let newCorrectAnswer := findIndex isCorrect optionsWithIndex in
      Ok (VObj (set_field (lit "correctAnswer") (VNum (num_of_Z newCorrectAnswer))
                  (set_field (lit "options") (VArr (text <$> optionsWithIndex))
                     (spread question))))
  | _ => Throw TypeError (* [.map] is not a function, or [options] is undefined *)
  end.

(** Shuffling again and again, each round with its own draws. *)
Fixpoint shuffle_rounds (rounds : list (nat -> draw)) (question : value) : result value :=
  match rounds with
  | [] => Ok question
  | rand :: rest => q ← shuffleOptionsAndAnswer rand question; shuffle_rounds rest q
  end.

(** ** The environment: fetch, response.json(), JSON.parse, ToString *)

(** A response: its status and what the first [response.json()] gives
    ([None] when the body is not JSON and the read rejects). *)
Record response : Type := Response { status : Z; body : option value }.

(** [response.ok]: the status is in the range 200-299. *)
Definition ok (r : response) : bool := ((200 <=? status r) && (status r <=? 299))%Z.

Inductive fetch_outcome : Type :=
| Resolves (r : response)
| Rejects.

(** [await response.json()]; a body can be read once. *)
Definition json (r : response) (bodyUsed : bool) : result value :=
  if bodyUsed then Throw TypeError
  else match body r with
       | Some v => Ok v
       | None => Throw SyntaxError
       end.

(** The two line feeds of ['\n\n']. *)
Definition blank_line : str := [10; 10]%N.

Inductive exam : Type := JEE | NEET.

Definition exam_name (e : exam) : str :=
  match e with JEE => lit "JEE" | NEET => lit "NEET" end.

(** The payloads of the four requests. *)
Definition explore_payload (query : str) (userContext : value) : value :=
  VObj [(lit "query", VStr query); (lit "userContext", userContext)].

Definition playground_payload (topic : str) (level : number) (userContext : value) : value :=
  VObj [(lit "topic", VStr topic); (lit "level", VNum level); (lit "userContext", userContext)].

Definition test_payload (topic : str) (examType : exam) : value :=
  VObj [(lit "topic", VStr topic); (lit "examType", VStr (exam_name examType))].

Definition stream_payload (query : str) (userContext chatHistory : value) : value :=
  VObj [(lit "query", VStr query); (lit "userContext", userContext);
        (lit "chatHistory", chatHistory)].

(** [s.split('---')] *)
Fixpoint split_dashes (cur : str) (s : str) : list str :=
  match s with
  | [] => [reverse cur]
  | c1 :: tl =>
      match tl with
      | c2 :: c3 :: rest =>
          if ((c1 =? 45) && (c2 =? 45) && (c3 =? 45))%N
          then reverse cur :: split_dashes [] rest
          else split_dashes (c1 :: cur) tl
      | _ => split_dashes (c1 :: cur) tl
      end
  end.

Section Service.

(** The worker's answer to a POST of [{endpoint, payload}]. *)
Variable fetch : string -> value -> fetch_outcome.

(** [JSON.parse], [None] when it raises SyntaxError. *)
Variable JSON_parse : str -> option value.

(** The conversion to a string of a value that is not a string. *)
Variable ToString : value -> str.

Definition to_string (v : value) : str :=
  match v with
  | VStr s => s
  | _ => ToString v
  end.

(** The conversion of [v] to a string where it can raise. *)
Definition convert (v : value) : result str :=
  if convertible v then Ok (to_string v) else Throw TypeError.

(** [v.toString()] *)
Definition toString_method (v : value) : result str :=
  if nullish v then Throw TypeError else convert v.

(** [items.join(sep)]: an element that is null or undefined gives the empty
    string, any other is converted. *)
Fixpoint join (sep : str) (items : list value) : result str :=
  match items with
  | [] => Ok []
  | [x] => if nullish x then Ok [] else convert x
  | x :: rest =>
      first ← (if nullish x then Ok [] else convert x);
      others ← join sep rest;
      Ok (first ++ sep ++ others)
  end.

(** [alert(`Too many requests. Please try again in ${Math.ceil(v)} seconds`)]:
    [Math.ceil] converts [v] to a number before the alert is raised. *)
Definition alert_retry_after (v : value) : M unit :=
  if convertible v then emit (Alert v) else throw TypeError.

Definition makeApiRequest (endpoint : string) (payload : value) : M value :=
  try_catch
    (response ← lift (match fetch endpoint payload with
                      | Resolves r => Ok r
                      | Rejects => Throw NetworkError
                      end);
     if negb (ok response) then throw (ApiRequestFailed (status response)) else
     bodyUsed ← (if (status response =? 429)%Z
                 then data ← lift (json response false);
                      retryAfter ← lift (get data "retryAfter");
                      alert_retry_after retryAfter;;
                      mret true
                 else mret false);
     lift (json response bodyUsed))
    (fun error => emit (LogError "API request error:" error);; throw FailedToMakeApiRequest).

(** [typeof content === 'string' ? JSON.parse(content) : content] *)
Definition parse_if_string (content : value) : result value :=
  match content with
  | VStr s => match JSON_parse s with
              | Some v => Ok v
              | None => Throw SyntaxError
              end
  | _ => Ok content
  end.

(** The test of the response structure in [getExploreContent], with the
    short circuit of [||]. *)
Definition explore_structure_invalid (parsedContent : value) : result bool :=
  domain ← get parsedContent "domain";
  if negb (truthy domain) then Ok true else
  content ← get parsedContent "content";
  if negb (truthy content) then Ok true else
  paragraph1 ← get content "paragraph1";
  if negb (truthy paragraph1) then Ok true else
  paragraph2 ← get content "paragraph2";
  if negb (truthy paragraph2) then Ok true else
  paragraph3 ← get content "paragraph3";
  Ok (negb (truthy paragraph3)).

(** [Array.isArray(v) ? v.slice(0, 5) : []] *)
Definition first_five (v : value) : value :=
  match v with
  | VArr items => VArr (take 5 items)
  | _ => VArr []
  end.

Definition getExploreContent (query : str) (userContext : value) : M value :=
  try_catch
    (content ← makeApiRequest "explore" (explore_payload query userContext);
     if negb (truthy content) then throw EmptyResponseFromApi else
     parsedContent ← try_catch (lift (parse_if_string content))
       (fun error => emit (LogError "JSON Parse Error:" error);; throw InvalidJsonResponse);
     invalid ← lift (explore_structure_invalid parsedContent);
     if (invalid : bool) then throw InvalidResponseStructure else
     lift (content ← get parsedContent "content";
           paragraph1 ← get content "paragraph1";
           paragraph2 ← get content "paragraph2";
           paragraph3 ← get content "paragraph3";
           formattedContent ← join blank_line [paragraph1; paragraph2; paragraph3];
           relatedTopics ← get parsedContent "relatedTopics";
           relatedQuestions ← get parsedContent "relatedQuestions";
           Ok (VObj [(lit "content", VStr formattedContent);
                     (lit "relatedTopics", first_five relatedTopics);
                     (lit "relatedQuestions", first_five relatedQuestions)])))
    (fun error => emit (LogError "Explore content error:" error);;
                  throw FailedToGenerateExploreContent).

(** The object literal [formattedQuestion] of [getPlaygroundQuestion]. *)
Definition format_question (shuffled parsedContent : value) (topic : str) (level : number)
    (userContext : value) : result value :=
  text ← get shuffled "text";
  options ← get shuffled "options";
  correctAnswer ← get shuffled "correctAnswer";
  explanation ← get shuffled "explanation";
  let correct :=
    or_else (get_opt explanation "correct") (VStr (lit "Correct answer explanation")) in
  let key_point :=
    or_else (get_opt explanation "key_point") (VStr (lit "Key learning point")) in
  subtopic ← get parsedContent "subtopic";
  age ← get userContext "age";
  ageGroup ← toString_method age;
  Ok (VObj [(lit "text", or_else text (VStr []));
            (lit "options", options);
            (lit "correctAnswer", correctAnswer);
            (lit "explanation", VObj [(lit "correct", correct); (lit "key_point", key_point)]);
            (lit "difficulty", VNum level);
            (lit "topic", VStr topic);
            (lit "subtopic", or_else subtopic (VStr topic));
            (lit "questionType", VStr (lit "conceptual"));
            (lit "ageGroup", VStr ageGroup)]).

Definition getPlaygroundQuestion (rand : nat -> draw) (topic : str) (level : number)
    (userContext : value) : M value :=
  try_catch
    (content ← makeApiRequest "playground" (playground_payload topic level userContext);
     if negb (truthy content) then throw EmptyResponseReceived else
     parsedContent ← try_catch (lift (parse_if_string content))
       (fun error => emit (LogError "JSON Parse Error:" error);; throw InvalidJsonResponse);
     shuffled ← lift (shuffleOptionsAndAnswer rand parsedContent);
     formattedQuestion ← lift (format_question shuffled parsedContent topic level userContext);
     valid ← validateQuestionFormat formattedQuestion;
     if (valid : bool) then mret formattedQuestion
     else throw GeneratedQuestionFailedValidation)
    (fun error => emit (LogError "Question generation error:" error);;
                  throw FailedToGenerateValidQuestion).

(** The callback of [parsed.questions.map] in [getTestQuestions]. *)
Definition process_question (topic : str) (examType : exam) (index : nat) (q : value)
    : result value :=
  let difficulty := index / 5 + 1 in
  text ← get q "text";
  options ← get q "options";
  correctAnswer ← get q "correctAnswer";
  explanation ← get q "explanation";
  subtopic ← get q "subtopic";
  Ok (VObj [(lit "text", or_else text (VStr []));
            (lit "options", if is_array options then options else VArr []);
            (lit "correctAnswer", if is_number correctAnswer then correctAnswer
                                  else VNum (num_of_nat 0));
            (lit "explanation", or_else explanation (VStr []));
            (lit "difficulty", VNum (num_of_nat difficulty));
            (lit "topic", VStr topic);
            (lit "subtopic",
             or_else subtopic
               (VStr (topic ++ lit " Concept " ++ ToString (VNum (num_of_nat (index + 1))))));
            (lit "examType", VStr (exam_name examType));
            (lit "questionType", VStr (lit "conceptual"));
            (lit "ageGroup", VStr (lit "16-18"))]).

(** [questions.map((q, index) => ...)] from [index] on. *)
Fixpoint process_questions (topic : str) (examType : exam) (index : nat) (qs : list value)
    : result (list value) :=
  match qs with
  | [] => Ok []
  | q :: rest =>
      p ← process_question topic examType index q;
      ps ← process_questions topic examType (S index) rest;
      Ok (p :: ps)
  end.

(** [qs.filter(q => this.validateQuestionFormat(q))] *)
Fixpoint filter_valid (qs : list value) : M (list value) :=
  match qs with
  | [] => mret []
  | q :: rest =>
      keep ← validateQuestionFormat q;
      kept ← filter_valid rest;
      mret (if (keep : bool) then q :: kept else kept)
  end.

Definition getTestQuestions (topic : str) (examType : exam) : M value :=
  try_catch
    (content ← makeApiRequest "test" (test_payload topic examType);
     if negb (truthy content)
     then emit (Log "Empty response from API");; throw NoContentReceived else
     parsed ← try_catch (lift (parse_if_string content))
       (fun error => emit (LogError "JSON parse error:" error);; throw FailedToParseApiResponse);
     match get_opt parsed "questions" with
     | VArr questions =>
         processedQuestions ← lift (process_questions topic examType 0 questions);
         validQuestions ← filter_valid processedQuestions;
         if 5 <=? length validQuestions then mret (VArr (take 15 validQuestions))
         else throw (OnlyValidQuestions (length validQuestions))
     | _ => emit (LogValue "Invalid response structure:" parsed);;
            throw InvalidResponseStructure
     end)
    (fun error => emit (LogError "Test generation error:" error);;
                  throw (FailedToGenerateTestQuestions error)).

(** [v.map(item => ({a: item.x, b: item.y, c: item.z}))] *)
Fixpoint rename_fields (a x b y c z : string) (items : list value) : result (list value) :=
  match items with
  | [] => Ok []
  | item :: rest =>
      vx ← get item x;
      vy ← get item y;
      vz ← get item z;
      others ← rename_fields a x b y c z rest;
      Ok (VObj [(lit a, vx); (lit b, vy); (lit c, vz)] :: others)
  end.

(** The [if (jsonStr) { try { ... } catch { ... } }] of [streamExploreContent]:
    the final values of [topics] and [questions]. An assignment made before
    the block raises is kept. *)
Definition related (jsonStr : str) : M (list value * list value) :=
  let log error := emit (LogError "JSON parse error:" error) in
  match JSON_parse jsonStr with
  | None => log SyntaxError;; mret ([], [])
  | Some parsed =>
      match (t ← get parsed "topics";
             match t with
             | VArr items => rename_fields "topic" "name" "type" "type" "reason" "detail" items
             | _ => Ok []
             end) with
      | Throw error => log error;; mret ([], [])
      | Ok topics =>
          match (q ← get parsed "questions";
                 match q with
                 | VArr items =>
                     rename_fields "question" "text" "type" "type" "context" "detail" items
                 | _ => Ok []
                 end) with
          | Throw error => log error;; mret (topics, [])
          | Ok questions => mret (topics, questions)
          end
      end
  end.

(** [xs.length > 0 ? xs : undefined] *)
Definition nonempty_or_undefined (xs : list value) : value :=
  match xs with
  | [] => VUndefined
  | _ => VArr xs
  end.

(** The test [data.candidates && data.candidates[0]?.content?.parts]. *)
Definition gemini_parts (data : value) : result value :=
  candidates ← get data "candidates";
  if truthy candidates
  then Ok (get_opt (get_opt (index0 candidates) "content") "parts")
  else Ok candidates.

Definition streamExploreContent (query : str) (userContext chatHistory : value) : M unit :=
  try_catch
    (response ← lift (match fetch "streamExplore"
                              (stream_payload query userContext chatHistory) with
                      | Resolves r => Ok r
                      | Rejects => Throw NetworkError
                      end);
     bodyUsed ← (if (status response =? 429)%Z
                 then data ← lift (json response false);
                      retryAfter ← lift (get data "retryAfter");
                      alert_retry_after retryAfter;;
                      mret true
                 else mret false);
     if negb (ok response) then throw (StreamRequestFailed (status response)) else
     data ← lift (json response bodyUsed);
     parts ← lift (gemini_parts data);
     if truthy parts then
       content ← lift (get (index0 parts) "text");
       match content with
       | VStr content =>
           let pieces := trim <$> split_dashes [] content in
           let textContent := from_option VStr VUndefined (pieces !! 0) in
           let jsonStr := default [] (pieces !! 1) in
           found ← (if truthy (VStr jsonStr) then related jsonStr else mret ([], []));
           emit (OnChunk textContent (nonempty_or_undefined (fst found))
                                     (nonempty_or_undefined (snd found)))
       | _ => throw TypeError (* [content.split] is not a function *)
       end
     else mret tt)
    (fun error => emit (LogError "Stream error:" error);; throw FailedToStreamContent).

End Service.

(** * The statements' vocabulary

    Predicates and concrete inputs used by the properties below. *)

(** ** Format validation *)

(** A string that does not trim to the empty string and has at least [min]
    code units. *)
Definition nonblank_string (min : nat) (v : value) : Prop :=
  exists s, v = VStr s /\ trim s <> [] /\ min <= length s.

(** The conditions of the format, with the condition on the number
    [correctAnswer] left open. *)
Record well_formed (answer_ok : number -> Prop) (q : value) : Prop := WellFormed {
  wf_text : nonblank_string 10 (get_opt q "text");
  wf_options : exists opts, get_opt q "options" = VArr opts /\ length opts = 4 /\
                            Forall (nonblank_string 0) opts /\ NoDup opts;
  wf_answer : exists n, get_opt q "correctAnswer" = VNum n /\ answer_ok n;
  wf_correct : nonblank_string 5 (get_opt (get_opt q "explanation") "correct");
  wf_key_point : nonblank_string 5 (get_opt (get_opt q "explanation") "key_point")
}.

(** The format as the code tests it: [correctAnswer] is a number that is
    neither below 0 nor above 3. *)
Definition within_0_3 (n : number) : Prop := num_lt n 0 = false /\ num_gt n 3 = false.

Definition code_valid : value -> Prop := well_formed within_0_3.

(** The format as the specification words it: [correctAnswer] is an integer
    in [0,3]. *)
Definition integer_in_0_3 (n : number) : Prop := is_integer n /\ within_0_3 n.

Definition spec_valid : value -> Prop := well_formed integer_in_0_3.

(** The verdict of [validateQuestionFormat]. *)
Definition passes (q : value) : bool :=
  match validation_checks q with
  | Ok b => b
  | Throw _ => false
  end.

(** The malformations named by the specification, and the others the checks
    reject. *)
Inductive malformed (q : value) : Prop :=
| text_not_a_string : is_string (get_opt q "text") = false -> malformed q
| text_blank s : get_opt q "text" = VStr s -> trim s = [] -> malformed q
| text_short s : get_opt q "text" = VStr s -> length s < 10 -> malformed q
| options_not_an_array : is_array (get_opt q "options") = false -> malformed q
| wrong_option_count opts : get_opt q "options" = VArr opts -> length opts <> 4 -> malformed q
| option_not_a_string opts o :
    get_opt q "options" = VArr opts -> o ∈ opts -> is_string o = false -> malformed q
| option_blank opts s :
    get_opt q "options" = VArr opts -> VStr s ∈ opts -> trim s = [] -> malformed q
| duplicate_options opts : get_opt q "options" = VArr opts -> ~ NoDup opts -> malformed q
| answer_not_a_number : is_number (get_opt q "correctAnswer") = false -> malformed q
| answer_below_0 n : get_opt q "correctAnswer" = VNum n -> num_lt n 0 = true -> malformed q
| answer_above_3 n : get_opt q "correctAnswer" = VNum n -> num_gt n 3 = true -> malformed q
| explanation_not_an_object :
    (forall fs, get_opt q "explanation" <> VObj fs) -> malformed q
| explanation_field_not_a_string k :
    k = "correct"%string \/ k = "key_point"%string ->
    is_string (get_opt (get_opt q "explanation") k) = false -> malformed q
| explanation_field_blank k s :
    k = "correct"%string \/ k = "key_point"%string ->
    get_opt (get_opt q "explanation") k = VStr s -> trim s = [] -> malformed q
| explanation_field_short k s :
    k = "correct"%string \/ k = "key_point"%string ->
    get_opt (get_opt q "explanation") k = VStr s -> length s < 5 -> malformed q.

(** A well-formed question, but for the [correctAnswer] it is given. *)
Definition sample_question (correctAnswer : value) : value :=
  VObj [(lit "text", VStr (lit "What is 2 + 2?"));
        (lit "options", VArr [VStr (lit "3"); VStr (lit "4"); VStr (lit "5"); VStr (lit "6")]);
        (lit "correctAnswer", correctAnswer);
        (lit "explanation",
         VObj [(lit "correct", VStr (lit "2 + 2 = 4")); (lit "key_point", VStr (lit "Addition"))])].

(** A question whose first option is the number 7: [opt.trim] is not a
    function there. *)
Definition question_with_number_option : value :=
  VObj [(lit "text", VStr (lit "What is 2 + 2?"));
        (lit "options", VArr [VNum (num_of_nat 7); VStr (lit "4"); VStr (lit "5"); VStr (lit "6")]);
        (lit "correctAnswer", VNum (num_of_nat 1));
        (lit "explanation",
         VObj [(lit "correct", VStr (lit "2 + 2 = 4")); (lit "key_point", VStr (lit "Addition"))])].

(** ** The shuffle *)

(** The options of [q] are [options] and its correctAnswer is an index of
    them, the one of [answer]. *)
Definition answer_of (q : value) (options : list value) (answer : value) : Prop :=
  get_opt q "options" = VArr options /\
  exists k, strict_eq_index k (get_opt q "correctAnswer") = true /\ options !! k = Some answer.

(** [correctAnswer] is strictly equal to no index of [options]. *)
Definition no_index (correctAnswer : value) (options : list value) : Prop :=
  forall idx, idx < length options -> strict_eq_index idx correctAnswer = false.

(** The fields of a question other than [options] and [correctAnswer] that
    the types name. *)
Definition other_fields : list string :=
  ["text"; "explanation"; "difficulty"; "topic"; "subtopic"; "examType"; "questionType";
   "ageGroup"]%string.

(** Two sequences of draws: always 1/2, and always 0. *)
Definition halves : nat -> draw := fun _ => Draw 1 2 eq_refl.
Definition zeros : nat -> draw := fun _ => Draw 0 1 eq_refl.

(** ** getExploreContent *)

(** The parsed body, a value other than null, lacks [domain] or one of the
    three paragraphs of [content]; a body without [content] lacks all
    three. *)
Definition missing_required (parsed : value) : Prop :=
  nullish parsed = false /\
  (get_opt parsed "domain" = VUndefined \/
   exists p, (p = "paragraph1" \/ p = "paragraph2" \/ p = "paragraph3")%string /\
             get_opt (get_opt parsed "content") p = VUndefined).

(** ** getTestQuestions *)

(** The mapped questions that pass the format validation, in their order. *)
Definition valid_among (processed : list value) : list value :=
  filter (fun q => passes q = true) processed.

(** ** streamExploreContent *)

(** What is at [candidates[0].content.parts] in [data], undefined when a step
    of the path is missing. *)
Definition parts_of (data : value) : value :=
  get_opt (get_opt (index0 (get_opt data "candidates")) "content") "parts".

(** ** Concrete environments *)

(** A worker that answers every request with status [status] and the JSON
    body [data]. *)
Definition always (status : Z) (data : value) : string -> value -> fetch_outcome :=
  fun _ _ => Resolves (Response status (Some data)).

(** A [JSON.parse] that rejects everything and a [ToString] that gives the
    empty string: the inputs below make no use of either. *)
Definition no_parse : str -> option value := fun _ => None.
Definition no_text : value -> str := fun _ => [].

Definition sixteen : value := VObj [(lit "age", VNum (num_of_nat 16))].

(** A body with the domain and the three paragraphs A, B and C. *)
Definition explore_abc : value :=
  VObj [(lit "domain", VStr (lit "letters"));
        (lit "content", VObj [(lit "paragraph1", VStr (lit "A"));
                              (lit "paragraph2", VStr (lit "B"));
                              (lit "paragraph3", VStr (lit "C"))])].

(** The same body without its third paragraph. *)
Definition explore_ab : value :=
  VObj [(lit "domain", VStr (lit "letters"));
        (lit "content", VObj [(lit "paragraph1", VStr (lit "A"));
                              (lit "paragraph2", VStr (lit "B"))])].

(** A batch of [n] copies of a well-formed question followed by one item
    whose explanation is a plain string. *)
Definition string_explanation_item : value :=
  VObj [(lit "text", VStr (lit "What is 2 + 2?"));
        (lit "options", VArr [VStr (lit "3"); VStr (lit "4"); VStr (lit "5"); VStr (lit "6")]);
        (lit "correctAnswer", VNum (num_of_nat 1));
        (lit "explanation", VStr (lit "2 + 2 = 4"))].

Definition batch (n : nat) : value :=
  VObj [(lit "questions",
         VArr (replicate n (sample_question (VNum (num_of_nat 1))) ++ [string_explanation_item]))].

(** Six well-formed questions followed by null. *)
Definition six_and_null : value :=
  VObj [(lit "questions",
         VArr (replicate 6 (sample_question (VNum (num_of_nat 1))) ++ [VNull]))].

(** A Gemini envelope whose text is ["Hello---T"], and a [JSON.parse] that
    knows the one document ["T"]: an object with one topic. *)
Definition gemini_hello : value :=
  VObj [(lit "candidates",
         VArr [VObj [(lit "content",
                      VObj [(lit "parts", VArr [VObj [(lit "text", VStr (lit "Hello---T"))]])])]])].

Definition parse_T : str -> option value := fun s =>
  if str_eqb s (lit "T")
  then Some (VObj [(lit "topics",
                    VArr [VObj [(lit "name", VStr (lit "X")); (lit "type", VStr (lit "t"));
                                (lit "detail", VStr (lit "d"))]])])
  else None.

(** * Further vocabulary *)

From Stdlib Require Import Sorted.

(** ** makeApiRequest *)

(** What [makeApiRequest] logs as the cause of its failure. *)
Definition request_failure (o : fetch_outcome) : error :=
  match o with
  | Rejects => NetworkError
  | Resolves r => if ok r then SyntaxError else ApiRequestFailed (status r)
  end.

(** ** getExploreContent *)

(** The fields [getExploreContent] requires are all there and truthy. *)
Definition explore_complete (parsed : value) : bool :=
  truthy (get_opt parsed "domain") && truthy (get_opt parsed "content") &&
  truthy (get_opt (get_opt parsed "content") "paragraph1") &&
  truthy (get_opt (get_opt parsed "content") "paragraph2") &&
  truthy (get_opt (get_opt parsed "content") "paragraph3").

(** The three paragraphs [getExploreContent] joins. *)
Definition explore_paragraphs (parsed : value) : list value :=
  [get_opt (get_opt parsed "content") "paragraph1";
   get_opt (get_opt parsed "content") "paragraph2";
   get_opt (get_opt parsed "content") "paragraph3"].

(** ** getTestQuestions *)

(** The question [process_question] makes of the item [q] at [index], [q]
    being neither null nor undefined. *)
Definition mapped_question (ToString : value -> str) (topic : str) (examType : exam)
    (index : nat) (q : value) : value :=
  VObj [(lit "text", or_else (get_opt q "text") (VStr []));
        (lit "options", if is_array (get_opt q "options") then get_opt q "options" else VArr []);
        (lit "correctAnswer", if is_number (get_opt q "correctAnswer")
                              then get_opt q "correctAnswer" else VNum (num_of_nat 0));
        (lit "explanation", or_else (get_opt q "explanation") (VStr []));
        (lit "difficulty", VNum (num_of_nat (index / 5 + 1)));
        (lit "topic", VStr topic);
        (lit "subtopic",
         or_else (get_opt q "subtopic")
           (VStr (topic ++ lit " Concept " ++ ToString (VNum (num_of_nat (index + 1))))));
        (lit "examType", VStr (exam_name examType));
        (lit "questionType", VStr (lit "conceptual"));
        (lit "ageGroup", VStr (lit "16-18"))].

(** [a] is no harder than [b]. *)
Definition no_harder (a b : value) : Prop :=
  exists da db, get_opt a "difficulty" = VNum (num_of_nat da) /\
                get_opt b "difficulty" = VNum (num_of_nat db) /\ da <= db.

(** ** getPlaygroundQuestion *)


(** ** streamExploreContent *)

(** What is at [candidates[0].content.parts[0].text] in [data]. *)
Definition gemini_text (data : value) : value := get_opt (index0 (parts_of data)) "text".


(** [s.includes('---')] *)
Fixpoint includes_dashes (s : str) : bool :=
  match s with
  | [] => false
  | c1 :: tl =>
      match tl with
      | c2 :: c3 :: _ =>
          ((c1 =? 45) && (c2 =? 45) && (c3 =? 45))%N || includes_dashes tl
      | _ => false
      end
  end.

(** The events that are calls of the callback. *)
Definition is_chunk (ev : event) : bool :=
  match ev with OnChunk _ _ _ => true | _ => false end.


(** [Array.isArray(v) ? v : []] *)
Definition items_of (v : value) : list value :=
  match v with VArr items => items | _ => [] end.

(** [{a: item.x, b: item.y, c: item.z}] *)
Definition renamed (a x b y c z : string) (item : value) : value :=
  VObj [(lit a, get_opt item x); (lit b, get_opt item y); (lit c, get_opt item z)].

(** ** Concrete inputs *)

(** What a run returned, [d] for a run that threw. *)
Definition returned_or {A} (d : A) (m : M A) : A :=
  match outcome m with
  | Ok a => a
  | Throw _ => d
  end.

(** A worker that cannot be reached. *)
Definition unreachable : string -> value -> fetch_outcome := fun _ _ => Rejects.

(** A [JSON.parse] for which every text denotes [v]. *)
Definition parse_as (v : value) : str -> option value := fun _ => Some v.

(** The four options of [sample_question]. *)
Definition sample_options : list value :=
  [VStr (lit "3"); VStr (lit "4"); VStr (lit "5"); VStr (lit "6")].

(** A complete explore body with seven related topics and no related
    questions. *)
Definition explore_seven : value :=
  VObj [(lit "domain", VStr (lit "letters"));
        (lit "content", VObj [(lit "paragraph1", VStr (lit "A"));
                              (lit "paragraph2", VStr (lit "B"));
                              (lit "paragraph3", VStr (lit "C"))]);
        (lit "relatedTopics", VArr (replicate 7 (VStr (lit "t"))))].

(** A complete explore body whose third paragraph is an object with an own
    property [toString]. *)
Definition explore_unprintable : value :=
  VObj [(lit "domain", VStr (lit "letters"));
        (lit "content", VObj [(lit "paragraph1", VStr (lit "A"));
                              (lit "paragraph2", VStr (lit "B"));
                              (lit "paragraph3", VObj [(lit "toString", VBool true)])])].

(** A batch whose second item is null. *)
Definition batch_with_null : value :=
  VObj [(lit "questions", VArr [sample_question (VNum (num_of_nat 1)); VNull])].

(** A Gemini envelope with [text] at [candidates[0].content.parts[0].text]. *)
Definition gemini (text : value) : value :=
  VObj [(lit "candidates",
         VArr [VObj [(lit "content", VObj [(lit "parts", VArr [VObj [(lit "text", text)]])])]])].

(** A JSON part whose only topic is null, with one question. *)
Definition null_topic : value :=
  VObj [(lit "topics", VArr [VNull]);
        (lit "questions", VArr [VObj [(lit "text", VStr (lit "Why?"))]])].

(** A JSON part with one topic, whose only question is null. *)
Definition null_question : value :=
  VObj [(lit "topics", VArr [VObj [(lit "name", VStr (lit "X"))]]);
        (lit "questions", VArr [VNull])].


(** * Properties *)

(** ** The monad *)

Lemma outcome_bind {A B} (m : M A) (f : A -> M B) :
  outcome (m ≫= f) = match outcome m with Ok a => outcome (f a) | Throw e => Throw e end.
Proof. unfold mbind, M_bind. destruct (outcome m); reflexivity. Qed.

Lemma outcome_try_catch {A} (m : M A) (h : error -> M A) :
  outcome (try_catch m h) = match outcome m with Ok a => Ok a | Throw e => outcome (h e) end.
Proof. unfold try_catch. destruct (outcome m) eqn:E; simpl; congruence. Qed.

Lemma outcome_bind_Ok {A B} (m : M A) (f : A -> M B) (b : B) :
  outcome (m ≫= f) = Ok b -> exists a, outcome m = Ok a /\ outcome (f a) = Ok b.
Proof. rewrite outcome_bind. destruct (outcome m); [eauto | discriminate]. Qed.

(** ** Reading properties *)

Lemma get_get_opt (v : value) (k : string) :
  nullish v = false -> get v k = Ok (get_opt v k).
Proof. destruct v; simpl; intros; congruence. Qed.

Lemma str_eqb_eq (a b : str) : str_eqb a b = true <-> a = b.
Proof. unfold str_eqb. apply bool_decide_eq_true. Qed.

Lemma str_eqb_neq (a b : str) : str_eqb a b = false <-> a <> b.
Proof. unfold str_eqb. apply bool_decide_eq_false. Qed.

Lemma field_set_field_ne (k k' : str) (v : value) (fs : list (str * value)) :
  k <> k' -> field k (set_field k' v fs) = field k fs.
Proof.
  intros Hne. induction fs as [|[k0 v0] fs IH]; simpl.
  - apply str_eqb_neq in Hne. now rewrite Hne.
  - destruct (str_eqb k' k0) eqn:E; simpl.
    + apply str_eqb_eq in E. subst k0.
      apply str_eqb_neq in Hne. now rewrite Hne.
    + now rewrite IH.
Qed.

Lemma field_set_field_eq (k : str) (v : value) (fs : list (str * value)) :
  field k (set_field k v fs) = Some v.
Proof.
  induction fs as [|[k0 v0] fs IH]; simpl.
  - now rewrite (proj2 (str_eqb_eq k k) eq_refl).
  - destruct (str_eqb k k0) eqn:E; simpl.
    + now rewrite (proj2 (str_eqb_eq k k) eq_refl).
    + now rewrite E.
Qed.

(** ** validateQuestionFormat *)

Lemma validateQuestionFormat_outcome (q : value) :
  outcome (validateQuestionFormat q) = Ok (passes q).
Proof.
  unfold validateQuestionFormat, passes, try_catch, lift.
  destruct (validation_checks q); reflexivity.
Qed.

Lemma nonblank_Some (v : value) (s : str) :
  nonblank v = Ok (Some s) <-> v = VStr s /\ trim s <> [].
Proof.
  unfold nonblank.
  destruct v as [| | | |t| |]; simpl;
    try (split; [discriminate | intros [? _]; discriminate]).
  destruct (str_eqb (trim t) []) eqn:E; simpl.
  - apply str_eqb_eq in E. split; [discriminate|]. intros [H Hne]. congruence.
  - apply str_eqb_neq in E. split.
    + intros H. inversion H; subst. now split.
    + intros [H _]. congruence.
Qed.

Lemma some_blank_false (opts : list value) :
  some_blank opts = Ok false <-> Forall (nonblank_string 0) opts.
Proof.
  induction opts as [|o opts IH]; simpl.
  - split; [constructor | reflexivity].
  - destruct (nonblank o) as [[s|]|] eqn:E; simpl.
    + apply nonblank_Some in E as [-> Hne]. rewrite IH. split.
      * intros H. constructor; [exists s; repeat split; [assumption | lia] | assumption].
      * intros H. now inversion H.
    + split; [discriminate|]. intros H. inversion H as [|? ? (s & -> & Hne & _) _]; subst.
      assert (nonblank (VStr s) = Ok (Some s)) by now apply nonblank_Some.
      congruence.
    + split; [discriminate|]. intros H. inversion H as [|? ? (s & -> & Hne & _) _]; subst.
      assert (nonblank (VStr s) = Ok (Some s)) by now apply nonblank_Some.
      congruence.
Qed.

Lemma set_size_le (xs : list value) : set_size xs <= length xs.
Proof.
  induction xs as [|x xs IH]; simpl; [lia|].
  destruct (existsb (same_value_zero x) xs); lia.
Qed.

Lemma existsb_same_string (s : str) (xs : list value) :
  Forall (nonblank_string 0) xs ->
  existsb (same_value_zero (VStr s)) xs = true <-> VStr s ∈ xs.
Proof.
  induction 1 as [|x xs (t & -> & _) _ IH]; simpl.
  - split; [discriminate | intros H; inversion H].
  - rewrite orb_true_iff, IH, elem_of_cons, str_eqb_eq. split.
    + intros [->|H]; auto.
    + intros [H|H]; [left; congruence | now right].
Qed.

Lemma set_size_strings (xs : list value) :
  Forall (nonblank_string 0) xs ->
  length xs = set_size xs <-> NoDup xs.
Proof.
  induction 1 as [|x xs Hx Hxs IH]; simpl.
  - split; [constructor | reflexivity].
  - destruct Hx as (s & -> & Hs).
    destruct (existsb (same_value_zero (VStr s)) xs) eqn:E.
    + split.
      * pose proof (set_size_le xs). lia.
      * intros Hnd. apply list.NoDup_cons in Hnd as [Hin _].
        apply existsb_same_string in E; [contradiction | assumption].
    + rewrite list.NoDup_cons, <- IH. split.
      * intros H. split; [|lia]. intros Hin.
        apply existsb_same_string in Hin; [congruence | assumption].
      * intros [_ H]. lia.
Qed.

(** Case analysis on the innermost scrutinee of a hypothesis about a run of
    the checks. *)
Ltac case_scrutinee H :=
  match type of H with
  | context [match ?x with _ => _ end] =>
      lazymatch x with
      | context [match _ with _ => _ end] => fail
      | _ => destruct x eqn:?; simpl in H; try discriminate H
      end
  end.

Ltac bool_facts :=
  repeat match goal with
    | H : nonblank _ = Ok (Some _) |- _ => apply nonblank_Some in H as [? ?]
    | H : negb _ = false |- _ => apply negb_false_iff in H
    | H : _ || _ = false |- _ => apply orb_false_iff in H as [? ?]
    | H : (_ <? _) = false |- _ => apply Nat.ltb_ge in H
    | H : (_ =? _) = true |- _ => apply Nat.eqb_eq in H
    | H : some_blank _ = Ok false |- _ => apply some_blank_false in H
    end.

Local Opaque lit.

Lemma passes_code_valid (q : value) : passes q = true <-> code_valid q.
Proof.
  unfold passes, validation_checks.
  destruct q as [| | | | | |fs];
    try (simpl; split; [discriminate | intros [(t & Ht & _) _ _ _ _]; discriminate]).
  unfold mbind, result_bind. simpl.
  split.
  - intros H. repeat case_scrutinee H. bool_facts.
    split; simpl.
    + eexists; eauto.
    + eexists; repeat split; eauto. now apply set_size_strings.
    + eexists; split; [eassumption | now split].
    + eexists; eauto.
    + eexists; eauto.
  - intros [(t & Ht & Htrim & Hlen) (opts & Ho & H4 & Hall & Hnd)
            (n & Hn & Hlt & Hgt) (c & Hc & Hctrim & Hclen) (k & Hk & Hktrim & Hklen)].
    simpl in Ht, Ho, Hn, Hc, Hk. rewrite Ht, Ho, Hn.
    rewrite (proj2 (nonblank_Some (VStr t) t)) by now split.
    rewrite H4. simpl.
    rewrite (proj2 (some_blank_false opts) Hall).
    rewrite Hlt, Hgt. simpl.
    rewrite Hc, Hk.
    rewrite (proj2 (nonblank_Some (VStr c) c)) by now split.
    rewrite (proj2 (nonblank_Some (VStr k) k)) by now split.
    rewrite (proj2 (Nat.ltb_ge _ _) Hlen), (proj2 (Nat.ltb_ge _ _) Hclen),
      (proj2 (Nat.ltb_ge _ _) Hklen).
    apply set_size_strings in Hnd; [|assumption].
    rewrite <- Hnd, H4. reflexivity.
Qed.

Local Transparent lit.

Lemma passes_false_not_valid (q : value) : passes q = false <-> ~ code_valid q.
Proof.
  rewrite <- passes_code_valid. destruct (passes q); split; intros; congruence.
Qed.

Lemma malformed_not_valid (q : value) : malformed q -> ~ code_valid q.
Proof.
  intros Hm [(t & Ht & Htrim & Hlen) (opts & Ho & H4 & Hall & Hnd)
             (n & Hn & Hlt & Hgt) (c & Hc & Hctrim & Hclen) (k & Hk & Hktrim & Hklen)].
  destruct Hm as [H|s H1 H2|s H1 H2|H|os H1 H2|os o H1 H2 H3|os s H1 H2 H3|os H1 H2
                 |H|m H1 H2|m H1 H2|H|f [->| ->] H|f s [->| ->] H1 H2|f s [->| ->] H1 H2].
  all: try (rewrite ?Ht, ?Ho, ?Hn, ?Hc, ?Hk in *; simpl in *; congruence).
  all: try (assert (s = t) by congruence; subst; lia).
  all: try (assert (os = opts) by congruence; subst).
  all: try (assert (s = c) by congruence; subst; lia).
  all: try (assert (s = k) by congruence; subst; lia).
  - rewrite list.Forall_forall in Hall. destruct (Hall o H2) as (s & -> & _). discriminate.
  - rewrite list.Forall_forall in Hall. destruct (Hall _ H2) as (s' & E & Hs & _).
    inversion E; subst. contradiction.
  - destruct (get_opt q "explanation") as [| | | | | |fs] eqn:E; try discriminate.
    now apply (H fs).
Qed.

Lemma spec_valid_code_valid (q : value) : spec_valid q -> code_valid q.
Proof.
  intros [Ht Ho (n & Hn & _ & Hr) Hc Hk]. split; try assumption. now exists n.
Qed.

(** C2, as the code has it: [validateQuestionFormat] returns true if and only
    if the text is a string that is non-empty after trimming and at least 10
    code units long; options is an array of exactly 4 strings, each non-empty
    after trimming and all pairwise distinct; correctAnswer is a number that
    is neither less than 0 nor greater than 3 (it need not be an integer);
    and explanation.correct and explanation.key_point are strings that are
    non-empty after trimming and at least 5 code units long. *)
Theorem validateQuestionFormat_true_iff_code_valid (q : value) :
  outcome (validateQuestionFormat q) = Ok true <-> code_valid q.
Proof.
  rewrite validateQuestionFormat_outcome, <- passes_code_valid.
  split; [intros H; now inversion H | intros ->; reflexivity].
Qed.

(** C2 as worded fails: with correctAnswer 1.5 the question is accepted,
    although 1.5 is no integer in [0,3]. *)
Lemma validateQuestionFormat_accepts_fractional_answer :
  outcome (validateQuestionFormat (sample_question (VNum (Fin (3 # 2))))) = Ok true /\
  ~ spec_valid (sample_question (VNum (Fin (3 # 2)))).
Proof.
  split; [reflexivity|].
  intros [_ _ (n & Hn & (Hint & _)) _ _].
  vm_compute in Hn. inversion Hn; subst n.
  destruct Hint as [z Hz]. unfold Qeq in Hz. simpl in Hz. lia.
Qed.

(** C6: [validateQuestionFormat] returns a boolean on every input; it is
    false whenever one of the checks raises, and false on every malformed
    input: wrong option count, duplicate options, a correctAnswer that is
    out of range or not a number, an explanation that is missing or not an
    object, a short text or short explanations. *)
Theorem validateQuestionFormat_total_and_false_on_malformed (q : value) :
  (exists b, outcome (validateQuestionFormat q) = Ok b) /\
  (forall e, validation_checks q = Throw e -> outcome (validateQuestionFormat q) = Ok false) /\
  (malformed q -> outcome (validateQuestionFormat q) = Ok false).
Proof.
  rewrite validateQuestionFormat_outcome. split; [eauto|]. split.
  - intros e He. unfold passes. now rewrite He.
  - intros Hm. f_equal. apply passes_false_not_valid. now apply malformed_not_valid.
Qed.

(** An option that is a number makes the checks raise a TypeError; the call
    still returns false. *)
Lemma validateQuestionFormat_total_and_false_on_malformed_witness :
  validation_checks question_with_number_option = Throw TypeError /\
  outcome (validateQuestionFormat question_with_number_option) = Ok false.
Proof.
  split; [reflexivity|].
  apply (proj2 (proj2 (validateQuestionFormat_total_and_false_on_malformed
                         question_with_number_option))).
  eapply option_not_a_string; [reflexivity | apply list_elem_of_here | reflexivity].
Defined.

(** ** shuffleOptionsAndAnswer *)

Lemma swap_Permutation {A} (i j : nat) (a : list A) : swap i j a ≡ₚ a.
Proof.
  unfold swap.
  destruct (a !! j) as [x|] eqn:Hj; [|reflexivity].
  destruct (a !! i) as [y|] eqn:Hi; [|reflexivity].
  apply Permutation_inj. split; [now rewrite !length_insert|].
  exists (fun n => if decide (n = i) then j else if decide (n = j) then i else n).
  split.
  - intros m n. repeat case_decide; lia.
  - intros n. rewrite !list_lookup_insert, length_insert.
    pose proof (lookup_lt_Some _ _ _ Hi). pose proof (lookup_lt_Some _ _ _ Hj).
    repeat case_decide; destruct_and?; subst; try congruence; try lia.
Qed.

Lemma fisher_yates_Permutation {A} (rand : nat -> draw) (calls i : nat) (a : list A) :
  fisher_yates rand calls i a ≡ₚ a.
Proof.
  revert calls a. induction i as [|i IH]; intros calls a; simpl; [reflexivity|].
  rewrite IH. apply swap_Permutation.
Qed.

(** The place drawn at step [i] is one of [0..i]: both reads of the swap
    find an element. *)
Lemma floor_times_lt (r : draw) (n : nat) : 0 < n -> floor_times r n < n.
Proof.
  intros Hn. unfold floor_times. destruct r as [p q Hpq]; simpl.
  apply Nat.ltb_lt in Hpq.
  apply Nat.Div0.div_lt_upper_bound. nia.
Qed.

Lemma swap_reads_in_range {A} (r : draw) (i : nat) (a : list A) :
  i < length a -> is_Some (a !! floor_times r (i + 1)) /\ is_Some (a !! i).
Proof.
  intros Hi. pose proof (floor_times_lt r (i + 1)).
  split; apply lookup_lt_is_Some; lia.
Qed.

Lemma text_imap_Tagged (f : nat -> bool) (options : list value) :
  text <$> imap (fun idx opt => Tagged opt (f idx)) options = options.
Proof.
  revert f. induction options as [|o options IH]; intros f; simpl; [reflexivity|].
  f_equal. apply (IH (f ∘ S)).
Qed.

Lemma strict_eq_index_inj (i j : nat) (v : value) :
  strict_eq_index i v = true -> strict_eq_index j v = true -> i = j.
Proof.
  destruct v as [| | |[q| | |]| | |]; simpl; try discriminate.
  intros Hi Hj. apply Qeq_bool_iff in Hi, Hj.
  assert (E : (inject_Z (Z.of_nat i) == inject_Z (Z.of_nat j))%Q) by now rewrite Hi, Hj.
  apply (proj1 (inject_Z_injective _ _)) in E. lia.
Qed.

Lemma strict_eq_index_refl (k : nat) : strict_eq_index k (VNum (num_of_nat k)) = true.
Proof. simpl. apply Qeq_bool_refl. Qed.

Lemma findIndex_Some {A} (p : A -> bool) (a : list A) (x : A) :
  x ∈ a -> p x = true ->
  exists i y, findIndex p a = Z.of_nat i /\ a !! i = Some y /\ p y = true.
Proof.
  intros Hin Hp. unfold findIndex.
  destruct (list_find_elem_of (fun x => p x = true) a x Hin Hp) as [[i y] E].
  rewrite E. apply list_find_Some in E as (Hi & Hy & _). eauto.
Qed.

Lemma findIndex_None {A} (p : A -> bool) (a : list A) :
  (forall x, x ∈ a -> p x = false) -> findIndex p a = (-1)%Z.
Proof.
  intros H. unfold findIndex.
  destruct (list_find _ a) as [[i y]|] eqn:E; [|reflexivity].
  apply list_find_Some in E as (Hi & Hy & _).
  apply list_elem_of_lookup_2 in Hi. rewrite (H y Hi) in Hy. discriminate.
Qed.

Lemma lit_options_correctAnswer : lit "options" <> lit "correctAnswer".
Proof. discriminate. Qed.

Lemma shuffle_object (rand : nat -> draw) (fs : list (str * value)) (options : list value) :
  get_opt (VObj fs) "options" = VArr options ->
  let shuffled := shuffled_tagged rand (get_opt (VObj fs) "correctAnswer") options in
  shuffleOptionsAndAnswer rand (VObj fs) =
    Ok (VObj (set_field (lit "correctAnswer") (VNum (num_of_Z (findIndex isCorrect shuffled)))
                (set_field (lit "options") (VArr (text <$> shuffled)) fs))).
Proof.
  intros Ho. unfold shuffleOptionsAndAnswer. simpl in *. rewrite Ho. reflexivity.
Qed.

Lemma shuffle_Ok_inv (rand : nat -> draw) (q shuffled : value) :
  shuffleOptionsAndAnswer rand q = Ok shuffled ->
  exists fs options, q = VObj fs /\ get_opt q "options" = VArr options.
Proof.
  unfold shuffleOptionsAndAnswer.
  destruct q as [| | | | | |fs]; simpl; try discriminate.
  destruct (default VUndefined (field (lit "options") fs)); try discriminate.
  eauto.
Qed.

Lemma shuffled_options (rand : nat -> draw) (fs : list (str * value)) (options : list value) :
  get_opt (VObj fs) "options" = VArr options ->
  exists shuffled options',
    shuffleOptionsAndAnswer rand (VObj fs) = Ok shuffled /\
    get_opt shuffled "options" = VArr options' /\
    options' = text <$> shuffled_tagged rand (get_opt (VObj fs) "correctAnswer") options /\
    get_opt shuffled "correctAnswer" =
      VNum (num_of_Z (findIndex isCorrect
                        (shuffled_tagged rand (get_opt (VObj fs) "correctAnswer") options))) /\
    options' ≡ₚ options.
Proof.
  intros Ho. eexists _, _. split; [apply (shuffle_object rand fs options Ho)|].
  split; [|split; [reflexivity|split]].
  - unfold get_opt. rewrite field_set_field_ne by apply lit_options_correctAnswer.
    now rewrite field_set_field_eq.
  - unfold get_opt at 1. now rewrite field_set_field_eq.
  - unfold shuffled_tagged. rewrite fisher_yates_Permutation. now rewrite text_imap_Tagged.
Qed.

Lemma shuffle_keeps (rand : nat -> draw) (q : value) (options : list value) (answer : value) :
  answer_of q options answer ->
  exists shuffled options',
    shuffleOptionsAndAnswer rand q = Ok shuffled /\
    answer_of shuffled options' answer /\ options' ≡ₚ options.
Proof.
  intros [Ho (k & Hk & Hans)].
  destruct q as [| | | | | |fs]; try discriminate.
  destruct (shuffled_options rand fs options Ho) as (s & options' & Hs & Ho' & Eo & Hca & Hperm).
  exists s, options'. split; [assumption|]. split; [|assumption].
  split; [assumption|].
  set (ca := get_opt (VObj fs) "correctAnswer") in *.
  assert (Hall : forall e, e ∈ shuffled_tagged rand ca options ->
                           isCorrect e = true -> text e = answer).
  { intros e He Hc. unfold shuffled_tagged in He.
    rewrite fisher_yates_Permutation in He.
    apply list_elem_of_lookup in He as [i Hi].
    rewrite list_lookup_imap in Hi.
    destruct (options !! i) as [o|] eqn:Eo'; [|discriminate].
    simpl in Hi. inversion Hi; subst e. simpl in *.
    assert (i = k) by (eapply strict_eq_index_inj; eassumption).
    subst. congruence. }
  assert (Hin : Tagged answer true ∈ shuffled_tagged rand ca options).
  { unfold shuffled_tagged. rewrite fisher_yates_Permutation.
    apply list_elem_of_lookup. exists k.
    rewrite list_lookup_imap, Hans. simpl. now rewrite Hk. }
  destruct (findIndex_Some isCorrect _ _ Hin eq_refl) as (i & y & Hi & Hy & Hc).
  exists i. rewrite Hca, Hi. split.
  - apply strict_eq_index_refl.
  - rewrite Eo, list_lookup_fmap, Hy. simpl. f_equal.
    apply Hall; [|assumption]. eapply list_elem_of_lookup_2. eassumption.
Qed.

Lemma shuffle_rounds_keeps (rounds : list (nat -> draw)) (q : value) (options : list value)
    (answer : value) :
  answer_of q options answer ->
  exists shuffled options',
    shuffle_rounds rounds q = Ok shuffled /\
    answer_of shuffled options' answer /\ options' ≡ₚ options.
Proof.
  revert q options. induction rounds as [|rand rounds IH]; intros q options Hq; simpl.
  - exists q, options. auto.
  - destruct (shuffle_keeps rand q options answer Hq) as (s & o & Hs & Ha & Hp).
    rewrite Hs. simpl.
    destruct (IH s o Ha) as (s' & o' & Hs' & Ha' & Hp').
    exists s', o'. split; [assumption|]. split; [assumption|]. now rewrite Hp'.
Qed.

(** C1: for a question whose correctAnswer is a valid index of its options
    (4 of them, or any other number), at the option [answer], and for every
    sequence of draws, [shuffleOptionsAndAnswer] returns a question whose
    options are a permutation of the original ones and whose correctAnswer
    is an index of [answer] among them; and so does any number of shuffles
    applied one after the other. *)
Theorem shuffle_keeps_options_and_correct_answer (question : value) (options : list value)
    (answer : value) :
  answer_of question options answer ->
  (forall rand, exists shuffled options',
      shuffleOptionsAndAnswer rand question = Ok shuffled /\
      answer_of shuffled options' answer /\ options' ≡ₚ options) /\
  (forall rounds, exists shuffled options',
      shuffle_rounds rounds question = Ok shuffled /\
      answer_of shuffled options' answer /\ options' ≡ₚ options).
Proof.
  intros Hq. split.
  - intros rand. now apply shuffle_keeps.
  - intros rounds. now apply shuffle_rounds_keeps.
Qed.

Lemma shuffle_keeps_options_and_correct_answer_witness :
  exists shuffled options',
    shuffle_rounds [halves; zeros; halves] (sample_question (VNum (num_of_nat 1))) = Ok shuffled /\
    answer_of shuffled options' (VStr (lit "4")) /\
    options' ≡ₚ [VStr (lit "3"); VStr (lit "4"); VStr (lit "5"); VStr (lit "6")].
Proof.
  apply (proj2 (shuffle_keeps_options_and_correct_answer
                  (sample_question (VNum (num_of_nat 1)))
                  [VStr (lit "3"); VStr (lit "4"); VStr (lit "5"); VStr (lit "6")]
                  (VStr (lit "4"))
                  (conj eq_refl (ex_intro _ 1 (conj eq_refl eq_refl))))).
Defined.

(** One shuffle of the sample question with every draw 1/2: the options come
    back as 3, 6, 4, 5 and the correct answer, 4, is now at index 2. *)
Example shuffle_sample_halves :
  shuffleOptionsAndAnswer halves (sample_question (VNum (num_of_nat 1))) =
  Ok (VObj [(lit "text", VStr (lit "What is 2 + 2?"));
            (lit "options",
             VArr [VStr (lit "3"); VStr (lit "6"); VStr (lit "4"); VStr (lit "5")]);
            (lit "correctAnswer", VNum (num_of_Z 2));
            (lit "explanation",
             VObj [(lit "correct", VStr (lit "2 + 2 = 4"));
                   (lit "key_point", VStr (lit "Addition"))])]).
Proof. reflexivity. Qed.

(** C10: whenever [shuffleOptionsAndAnswer] returns (it does as soon as
    options is an array), the returned question has, under every key other
    than options and correctAnswer, what the input question has there: text,
    explanation, difficulty, topic, subtopic, examType, questionType and
    ageGroup in particular. *)
Theorem shuffle_changes_only_options_and_correctAnswer (rand : nat -> draw) (question : value) :
  (forall options, get_opt question "options" = VArr options ->
     exists shuffled, shuffleOptionsAndAnswer rand question = Ok shuffled) /\
  (forall shuffled, shuffleOptionsAndAnswer rand question = Ok shuffled ->
     exists fs fs', question = VObj fs /\ shuffled = VObj fs' /\
       (forall key, key <> lit "options" -> key <> lit "correctAnswer" ->
                    field key fs' = field key fs) /\
       Forall (fun name => get_opt shuffled name = get_opt question name) other_fields).
Proof.
  split.
  - intros options Ho. destruct question as [| | | | | |fs]; try discriminate.
    destruct (shuffled_options rand fs options Ho) as (s & _ & Hs & _). eauto.
  - intros shuffled Hs.
    destruct (shuffle_Ok_inv rand question shuffled Hs) as (fs & options & -> & Ho).
    rewrite (shuffle_object rand fs options Ho) in Hs. inversion Hs; subst shuffled.
    eexists fs, _. split; [reflexivity|]. split; [reflexivity|]. split.
    + intros key H1 H2. now rewrite !field_set_field_ne.
    + unfold other_fields. repeat constructor; unfold get_opt;
        rewrite !field_set_field_ne; (reflexivity || discriminate).
Qed.

Lemma shuffle_changes_only_options_and_correctAnswer_witness :
  exists shuffled,
    shuffleOptionsAndAnswer halves (sample_question (VNum (num_of_nat 1))) = Ok shuffled /\
    get_opt shuffled "text" = VStr (lit "What is 2 + 2?").
Proof.
  destruct (proj1 (shuffle_changes_only_options_and_correctAnswer halves
                     (sample_question (VNum (num_of_nat 1))))
              [VStr (lit "3"); VStr (lit "4"); VStr (lit "5"); VStr (lit "6")] eq_refl)
    as [shuffled Hs].
  exists shuffled. split; [exact Hs|].
  destruct (proj2 (shuffle_changes_only_options_and_correctAnswer halves
                     (sample_question (VNum (num_of_nat 1)))) shuffled Hs)
    as (fs & fs' & Hq & Hs' & Hframe & _).
  injection Hq as <-. subst shuffled. unfold get_opt.
  rewrite Hframe; [reflexivity | discriminate | discriminate].
Defined.

Lemma shuffle_no_index (rand : nat -> draw) (q : value) (options : list value) :
  get_opt q "options" = VArr options ->
  no_index (get_opt q "correctAnswer") options ->
  exists shuffled,
    shuffleOptionsAndAnswer rand q = Ok shuffled /\
    get_opt shuffled "correctAnswer" = VNum (num_of_Z (-1)).
Proof.
  intros Ho Hno. destruct q as [| | | | | |fs]; try discriminate.
  destruct (shuffled_options rand fs options Ho) as (s & o & Hs & _ & _ & Hca & _).
  exists s. split; [assumption|]. rewrite Hca. do 2 f_equal.
  apply findIndex_None. intros e He.
  unfold shuffled_tagged in He. rewrite fisher_yates_Permutation in He.
  apply list_elem_of_lookup in He as [i Hi]. rewrite list_lookup_imap in Hi.
  destruct (options !! i) as [x|] eqn:E; [|discriminate].
  inversion Hi; subst e. simpl. apply Hno. eapply lookup_lt_Some; eassumption.
Qed.

Lemma format_question_correctAnswer (ToString : value -> str) (shuffled parsed : value)
    (topic : str) (level : number) (userContext formatted : value) :
  format_question ToString shuffled parsed topic level userContext = Ok formatted ->
  get_opt formatted "correctAnswer" = get_opt shuffled "correctAnswer".
Proof.
  unfold format_question. intros H.
  destruct shuffled; simpl in H; try discriminate;
  destruct (get parsed "subtopic"); simpl in H; try discriminate;
  destruct (get userContext "age"); simpl in H; try discriminate;
  destruct (toString_method ToString a0); simpl in H; try discriminate;
  inversion H; reflexivity.
Qed.

(** ** getPlaygroundQuestion *)

Lemma playground_fails (fetch : string -> value -> fetch_outcome)
    (JSON_parse : str -> option value) (ToString : value -> str) (rand : nat -> draw)
    (topic : str) (level : number) (userContext content question : value)
    (options : list value) :
  outcome (makeApiRequest fetch "playground" (playground_payload topic level userContext))
    = Ok content ->
  truthy content = true ->
  parse_if_string JSON_parse content = Ok question ->
  get_opt question "options" = VArr options ->
  no_index (get_opt question "correctAnswer") options ->
  outcome (getPlaygroundQuestion fetch JSON_parse ToString rand topic level userContext)
    = Throw FailedToGenerateValidQuestion.
Proof.
  intros Hreq Ht Hparse Ho Hno.
  unfold getPlaygroundQuestion. rewrite outcome_try_catch, outcome_bind, Hreq, Ht. simpl.
  rewrite outcome_bind, outcome_try_catch. unfold lift; simpl. rewrite Hparse.
  destruct (shuffle_no_index rand question options Ho Hno) as (s & Hs & Hca).
  rewrite outcome_bind. unfold lift; simpl. rewrite Hs.
  rewrite outcome_bind. unfold lift; simpl.
  destruct (format_question _ _ _ _ _ _) as [formatted|] eqn:Hf; [|reflexivity].
  rewrite outcome_bind, validateQuestionFormat_outcome.
  assert (Hp : passes formatted = false).
  { apply passes_false_not_valid, malformed_not_valid.
    eapply answer_below_0;
      [rewrite (format_question_correctAnswer _ _ _ _ _ _ _ Hf); exact Hca | reflexivity]. }
  rewrite Hp. reflexivity.
Qed.

(** C9: when correctAnswer is strictly equal to no index of the options
    array, [shuffleOptionsAndAnswer] returns a question whose correctAnswer
    is -1; in [getPlaygroundQuestion] the question formatted from it fails
    [validateQuestionFormat], and the operation fails instead of returning
    it. *)
Theorem shuffle_without_correct_index_then_playground_fails (rand : nat -> draw)
    (question : value) (options : list value) :
  get_opt question "options" = VArr options ->
  no_index (get_opt question "correctAnswer") options ->
  (exists shuffled,
      shuffleOptionsAndAnswer rand question = Ok shuffled /\
      get_opt shuffled "correctAnswer" = VNum (num_of_Z (-1))) /\
  (forall fetch JSON_parse ToString topic level userContext content,
      outcome (makeApiRequest fetch "playground" (playground_payload topic level userContext))
        = Ok content ->
      truthy content = true ->
      parse_if_string JSON_parse content = Ok question ->
      (forall shuffled formatted,
          shuffleOptionsAndAnswer rand question = Ok shuffled ->
          format_question ToString shuffled question topic level userContext = Ok formatted ->
          outcome (validateQuestionFormat formatted) = Ok false) /\
      outcome (getPlaygroundQuestion fetch JSON_parse ToString rand topic level userContext)
        = Throw FailedToGenerateValidQuestion).
Proof.
  intros Ho Hno. split; [now apply (shuffle_no_index rand question options)|].
  intros fetch JSON_parse ToString topic level userContext content Hreq Ht Hparse. split.
  - intros shuffled formatted Hs Hf.
    destruct (shuffle_no_index rand question options Ho Hno) as (s & Hs' & Hca).
    assert (s = shuffled) by congruence. subst s.
    rewrite validateQuestionFormat_outcome. f_equal.
    apply passes_false_not_valid, malformed_not_valid.
    eapply answer_below_0;
      [rewrite (format_question_correctAnswer _ _ _ _ _ _ _ Hf); exact Hca | reflexivity].
  - now apply (playground_fails fetch JSON_parse ToString rand topic level userContext
                 content question options).
Qed.

Lemma shuffle_without_correct_index_then_playground_fails_witness :
  outcome (getPlaygroundQuestion (always 200 (sample_question (VNum (num_of_nat 7))))
             no_parse no_text halves (lit "sums") (num_of_nat 1) sixteen)
    = Throw FailedToGenerateValidQuestion.
Proof.
  refine (proj2 (proj2 (shuffle_without_correct_index_then_playground_fails halves
                   (sample_question (VNum (num_of_nat 7)))
                   [VStr (lit "3"); VStr (lit "4"); VStr (lit "5"); VStr (lit "6")]
                   eq_refl _)
            (always 200 (sample_question (VNum (num_of_nat 7)))) no_parse no_text
            (lit "sums") (num_of_nat 1) sixteen _ eq_refl eq_refl eq_refl)).
  intros idx Hidx. do 4 (destruct idx as [|idx]; [reflexivity|]). simpl in Hidx. lia.
Defined.

(** ** makeApiRequest *)

Lemma ok_not_429 (r : response) : ok r = true -> (status r =? 429)%Z = false.
Proof. unfold ok. intros H. apply andb_true_iff in H as [H1 H2]. lia. Qed.

Ltac not_in_trace :=
  let Hin := fresh in
  intros Hin;
  repeat (apply elem_of_cons in Hin as [Hin|Hin]; [discriminate Hin|]);
  now apply elem_of_nil in Hin.

Section Request.

Variable fetch : string -> value -> fetch_outcome.

Lemma makeApiRequest_not_ok (endpoint : string) (payload : value) (r : response) :
  fetch endpoint payload = Resolves r -> ok r = false ->
  makeApiRequest fetch endpoint payload =
    Run [LogError "API request error:" (ApiRequestFailed (status r))]
        (Throw FailedToMakeApiRequest).
Proof.
  intros Hf Hok. unfold makeApiRequest. rewrite Hf.
  unfold mbind, M_bind, lift. simpl. rewrite Hok. reflexivity.
Qed.

Lemma makeApiRequest_ok (endpoint : string) (payload : value) (r : response) :
  fetch endpoint payload = Resolves r -> ok r = true ->
  makeApiRequest fetch endpoint payload =
    match body r with
    | Some content => Run [] (Ok content)
    | None => Run [LogError "API request error:" SyntaxError] (Throw FailedToMakeApiRequest)
    end.
Proof.
  intros Hf Hok. unfold makeApiRequest. rewrite Hf.
  unfold mbind, M_bind, lift. simpl. rewrite Hok, (ok_not_429 r Hok). simpl.
  unfold json. destruct (body r); reflexivity.
Qed.

Lemma makeApiRequest_rejects (endpoint : string) (payload : value) :
  fetch endpoint payload = Rejects ->
  makeApiRequest fetch endpoint payload =
    Run [LogError "API request error:" NetworkError] (Throw FailedToMakeApiRequest).
Proof. intros Hf. unfold makeApiRequest. rewrite Hf. reflexivity. Qed.

(** A request that returns has logged nothing. *)
Lemma makeApiRequest_Ok (endpoint : string) (payload content : value) :
  outcome (makeApiRequest fetch endpoint payload) = Ok content ->
  makeApiRequest fetch endpoint payload = Run [] (Ok content).
Proof.
  destruct (fetch endpoint payload) as [r|] eqn:Hf.
  - destruct (ok r) eqn:Hok.
    + rewrite (makeApiRequest_ok endpoint payload r Hf Hok).
      destruct (body r); simpl; congruence.
    + now rewrite (makeApiRequest_not_ok endpoint payload r Hf Hok).
  - now rewrite (makeApiRequest_rejects endpoint payload Hf).
Qed.

(** C5: the status test [!response.ok] comes first and throws, the test for
    429 and its alert come after it. So a response with status 429 makes the
    call fail, the raised "API request failed: 429" being logged and the
    call's own error thrown, and no run of [makeApiRequest] ever issues the
    rate-limit alert. *)
Theorem makeApiRequest_429_fails_without_alert (endpoint : string) (payload : value) :
  (forall r, fetch endpoint payload = Resolves r -> status r = 429%Z ->
     makeApiRequest fetch endpoint payload =
       Run [LogError "API request error:" (ApiRequestFailed 429)]
           (Throw FailedToMakeApiRequest)) /\
  (forall retryAfter, Alert retryAfter ∉ trace (makeApiRequest fetch endpoint payload)).
Proof.
  split.
  - intros r Hf Hs. rewrite (makeApiRequest_not_ok endpoint payload r Hf).
    + now rewrite Hs.
    + unfold ok. rewrite Hs. reflexivity.
  - intros v. destruct (fetch endpoint payload) as [r|] eqn:Hf.
    + destruct (ok r) eqn:Hok.
      * rewrite (makeApiRequest_ok endpoint payload r Hf Hok).
        destruct (body r); simpl; not_in_trace.
      * rewrite (makeApiRequest_not_ok endpoint payload r Hf Hok). simpl. not_in_trace.
    + rewrite (makeApiRequest_rejects endpoint payload Hf). simpl. not_in_trace.
Qed.
End Request.

Lemma makeApiRequest_429_fails_without_alert_witness :
  makeApiRequest (always 429 (VObj [(lit "retryAfter", VNum (num_of_nat 30))])) "test" VNull =
    Run [LogError "API request error:" (ApiRequestFailed 429)] (Throw FailedToMakeApiRequest).
Proof.
  apply (proj1 (makeApiRequest_429_fails_without_alert
                  (always 429 (VObj [(lit "retryAfter", VNum (num_of_nat 30))])) "test" VNull)
           (Response 429 (Some (VObj [(lit "retryAfter", VNum (num_of_nat 30))])))
           eq_refl eq_refl).
Defined.

(** ** getExploreContent *)

Lemma truthy_not_nullish (v : value) : truthy v = true -> nullish v = false.
Proof. destruct v; simpl; congruence. Qed.

Lemma explore_structure_invalid_spec (parsed : value) :
  nullish parsed = false ->
  let content := get_opt parsed "content" in
  explore_structure_invalid parsed =
  Ok (negb (truthy (get_opt parsed "domain") && truthy content &&
            truthy (get_opt content "paragraph1") && truthy (get_opt content "paragraph2") &&
            truthy (get_opt content "paragraph3"))).
Proof.
  intros Hn content. unfold explore_structure_invalid.
  rewrite !(get_get_opt parsed) by assumption. unfold mbind, result_bind.
  destruct (truthy (get_opt parsed "domain")); simpl; [|reflexivity].
  fold content. destruct (truthy content) eqn:Hc; simpl; [|reflexivity].
  rewrite !(get_get_opt content) by now apply truthy_not_nullish.
  destruct (truthy (get_opt content "paragraph1")); simpl; [|reflexivity].
  destruct (truthy (get_opt content "paragraph2")); simpl; reflexivity.
Qed.

Lemma missing_required_invalid (parsed : value) :
  missing_required parsed -> explore_structure_invalid parsed = Ok true.
Proof.
  intros [Hn Hmiss]. rewrite explore_structure_invalid_spec by assumption. f_equal.
  apply negb_true_iff.
  destruct Hmiss as [-> | (p & [-> | [-> | ->]] & ->)]; simpl;
    rewrite ?andb_false_r; reflexivity.
Qed.

Section Explore.

Variable fetch : string -> value -> fetch_outcome.
Variable JSON_parse : str -> option value.
Variable ToString : value -> str.

(** C4: once the request has returned a body, [getExploreContent] fails
    whenever the parsed body lacks [domain] or one of [content.paragraph1],
    [content.paragraph2], [content.paragraph3]: "Invalid response structure"
    is raised, logged, and the call throws its own error. (A parsed body that
    is null itself makes the call fail the same way, the error logged being
    the TypeError of the first read.) When the domain is there and the
    paragraphs are non-empty strings (A, B and C, say), the [content] of the
    result is the three of them joined by two line feeds. *)
Theorem getExploreContent_missing_field_or_joined_paragraphs
    (query : str) (userContext content parsed : value) :
  outcome (makeApiRequest fetch "explore" (explore_payload query userContext)) = Ok content ->
  truthy content = true ->
  parse_if_string JSON_parse content = Ok parsed ->
  let run := getExploreContent fetch JSON_parse ToString query userContext in
  (missing_required parsed ->
     run = Run [LogError "Explore content error:" InvalidResponseStructure]
               (Throw FailedToGenerateExploreContent)) /\
  (nullish parsed = true ->
     run = Run [LogError "Explore content error:" TypeError]
               (Throw FailedToGenerateExploreContent)) /\
  (forall a b c : str,
     truthy (get_opt parsed "domain") = true ->
     get_opt (get_opt parsed "content") "paragraph1" = VStr a -> a <> [] ->
     get_opt (get_opt parsed "content") "paragraph2" = VStr b -> b <> [] ->
     get_opt (get_opt parsed "content") "paragraph3" = VStr c -> c <> [] ->
     exists result,
       outcome run = Ok result /\
       get_opt result "content" = VStr (a ++ blank_line ++ b ++ blank_line ++ c)).
Proof.
  intros Hreq Ht Hparse run. subst run. unfold getExploreContent.
  rewrite (makeApiRequest_Ok _ _ _ _ Hreq).
  unfold mbind at 1, M_bind. simpl. rewrite Ht. simpl.
  unfold lift. simpl. rewrite Hparse. simpl. split; [|split].
  - intros Hmiss. rewrite (missing_required_invalid parsed Hmiss). reflexivity.
  - intros Hn. destruct parsed; try discriminate Hn; reflexivity.
  - intros a b c Hd Ha Hane Hb Hbne Hc Hcne.
    assert (Hn : nullish parsed = false) by (destruct parsed; simpl in *; congruence).
    assert (Hcn : nullish (get_opt parsed "content") = false)
      by (destruct (get_opt parsed "content"); simpl in *; congruence).
    rewrite explore_structure_invalid_spec by assumption.
    rewrite Hd, Ha, Hb, Hc.
    assert (Hct : truthy (get_opt parsed "content") = true)
      by (destruct (get_opt parsed "content"); simpl in *; congruence).
    rewrite Hct. simpl.
    rewrite (proj2 (str_eqb_neq a [])), (proj2 (str_eqb_neq b [])), (proj2 (str_eqb_neq c []))
      by assumption.
    simpl. rewrite !(get_get_opt parsed) by assumption.
    unfold mbind, result_bind.
    rewrite !(get_get_opt (get_opt parsed "content")) by assumption.
    rewrite Ha, Hb, Hc. simpl. eexists. split; [reflexivity|]. reflexivity.
Qed.
End Explore.

Lemma getExploreContent_missing_field_or_joined_paragraphs_witness :
  getExploreContent (always 200 explore_ab) no_parse no_text [] sixteen =
    Run [LogError "Explore content error:" InvalidResponseStructure]
        (Throw FailedToGenerateExploreContent) /\
  exists result,
    outcome (getExploreContent (always 200 explore_abc) no_parse no_text [] sixteen) = Ok result /\
    get_opt result "content" = VStr [65; 10; 10; 66; 10; 10; 67]%N.
Proof.
  split.
  - apply (proj1 (getExploreContent_missing_field_or_joined_paragraphs
                    (always 200 explore_ab) no_parse no_text [] sixteen explore_ab explore_ab
                    eq_refl eq_refl eq_refl)).
    split; [reflexivity|]. right. exists "paragraph3"%string. split; [auto | reflexivity].
  - apply (proj2 (proj2 (getExploreContent_missing_field_or_joined_paragraphs
                    (always 200 explore_abc) no_parse no_text [] sixteen explore_abc explore_abc
                    eq_refl eq_refl eq_refl)) (lit "A") (lit "B") (lit "C"));
      (reflexivity || discriminate).
Defined.

(** ** getTestQuestions *)

Lemma outcome_filter_valid (qs : list value) :
  outcome (filter_valid qs) = Ok (valid_among qs).
Proof.
  induction qs as [|q qs IH]; simpl; [reflexivity|].
  rewrite outcome_bind, validateQuestionFormat_outcome, outcome_bind, IH. simpl.
  unfold valid_among. rewrite filter_cons. destruct (passes q); reflexivity.
Qed.

(** The mapping returns for every array without a null (or undefined) item,
    one question per item; on a null item the read of [q.text] raises. *)
Lemma process_questions_Ok (ToString : value -> str) (topic : str) (examType : exam)
    (index : nat) (questions : list value) :
  Forall (fun q => nullish q = false) questions ->
  exists processed,
    process_questions ToString topic examType index questions = Ok processed /\
    length processed = length questions.
Proof.
  intros H. revert index. induction H as [|q qs Hq _ IH]; intros index; simpl.
  - now exists [].
  - destruct (IH (S index)) as (ps & -> & Hlen).
    unfold process_question. rewrite !(get_get_opt q) by assumption. simpl.
    eexists. split; [reflexivity|]. simpl. now rewrite Hlen.
Qed.

Section Test.

Variable fetch : string -> value -> fetch_outcome.
Variable JSON_parse : str -> option value.
Variable ToString : value -> str.

(** The outcome of [getTestQuestions] once the body is parsed. *)
Lemma getTestQuestions_outcome (topic : str) (examType : exam) (content parsed : value) :
  outcome (makeApiRequest fetch "test" (test_payload topic examType)) = Ok content ->
  truthy content = true ->
  parse_if_string JSON_parse content = Ok parsed ->
  outcome (getTestQuestions fetch JSON_parse ToString topic examType) =
  match get_opt parsed "questions" with
  | VArr questions =>
      match process_questions ToString topic examType 0 questions with
      | Ok processed =>
          if 5 <=? length (valid_among processed)
          then Ok (VArr (take 15 (valid_among processed)))
          else Throw (FailedToGenerateTestQuestions
                        (OnlyValidQuestions (length (valid_among processed))))
      | Throw e => Throw (FailedToGenerateTestQuestions e)
      end
  | _ => Throw (FailedToGenerateTestQuestions InvalidResponseStructure)
  end.
Proof.
  intros Hreq Ht Hparse. unfold getTestQuestions.
  rewrite outcome_try_catch, outcome_bind, Hreq, Ht. simpl.
  rewrite outcome_bind, outcome_try_catch. unfold lift; simpl. rewrite Hparse.
  destruct (get_opt parsed "questions") as [| | | | |questions|]; try reflexivity.
  rewrite outcome_bind. simpl.
  destruct (process_questions ToString topic examType 0 questions) as [processed|e];
    [|reflexivity].
  rewrite outcome_bind, outcome_filter_valid.
  destruct (length (valid_among processed)) as [|[|[|[|[|n]]]]]; reflexivity.
Qed.

(** C3, as the code has it: for a body with a [questions] array none of
    whose items is null or undefined, every item is mapped to a question;
    when fewer than 5 of the mapped questions pass [validateQuestionFormat]
    the call fails with "Only n valid questions generated" (inside the
    call's own error), n being their number; when at least 5 pass it returns
    the first 15 of them at most, in the order of the array. *)
Theorem getTestQuestions_five_valid_or_fails (topic : str) (examType : exam)
    (content parsed : value) (questions : list value) :
  outcome (makeApiRequest fetch "test" (test_payload topic examType)) = Ok content ->
  truthy content = true ->
  parse_if_string JSON_parse content = Ok parsed ->
  get_opt parsed "questions" = VArr questions ->
  Forall (fun q => nullish q = false) questions ->
  exists processed,
    process_questions ToString topic examType 0 questions = Ok processed /\
    length processed = length questions /\
    let valid := valid_among processed in
    let run := getTestQuestions fetch JSON_parse ToString topic examType in
    (length valid < 5 ->
       outcome run =
         Throw (FailedToGenerateTestQuestions (OnlyValidQuestions (length valid)))) /\
    (5 <= length valid ->
       outcome run = Ok (VArr (take 15 valid)) /\
       length (take 15 valid) <= 15 /\
       take 15 valid `prefix_of` valid /\
       valid `sublist_of` processed).
Proof.
  intros Hreq Ht Hparse Hq Hall.
  destruct (process_questions_Ok ToString topic examType 0 questions Hall)
    as (processed & Hp & Hlen).
  exists processed. split; [exact Hp|]. split; [exact Hlen|].
  intros valid run. subst run.
  rewrite (getTestQuestions_outcome topic examType content parsed Hreq Ht Hparse), Hq, Hp.
  fold valid. split.
  - intros Hlt. apply Nat.leb_gt in Hlt. now rewrite Hlt.
  - intros Hge. pose proof Hge as Hle. apply Nat.leb_le in Hle. rewrite Hle.
    split; [reflexivity|]. split; [rewrite length_take; lia|].
    split; [apply prefix_take | apply sublist_filter].
Qed.

Lemma getTestQuestions_Ok_inv (topic : str) (examType : exam) (returned : value) :
  outcome (getTestQuestions fetch JSON_parse ToString topic examType) = Ok returned ->
  exists processed, returned = VArr (take 15 (valid_among processed)).
Proof.
  unfold getTestQuestions. rewrite outcome_try_catch.
  destruct (outcome (_ ≫= _)) as [r|e] eqn:E; [|discriminate].
  intros H; inversion H; subst r; clear H.
  apply outcome_bind_Ok in E as (content & _ & E).
  destruct (truthy content); simpl in E. 2: discriminate E.
  apply outcome_bind_Ok in E as (parsed & _ & E).
  destruct (get_opt parsed "questions") as [| | | | |questions|]; try discriminate.
  apply outcome_bind_Ok in E as (processed & _ & E).
  apply outcome_bind_Ok in E as (valid & Hv & E).
  rewrite outcome_filter_valid in Hv. inversion Hv; subst valid.
  exists processed.
  destruct (length (valid_among processed)) as [|[|[|[|[|n]]]]]; simpl in E;
    try discriminate E.
  now inversion E.
Qed.
End Test.

Lemma getTestQuestions_five_valid_or_fails_witness :
  outcome (getTestQuestions (always 200 (batch 4)) no_parse no_text (lit "sums") JEE) =
    Throw (FailedToGenerateTestQuestions (OnlyValidQuestions 4)) /\
  exists returned,
    outcome (getTestQuestions (always 200 (batch 5)) no_parse no_text (lit "sums") JEE) =
      Ok (VArr returned) /\ length returned = 5.
Proof.
  split.
  - destruct (getTestQuestions_five_valid_or_fails (always 200 (batch 4)) no_parse no_text
                (lit "sums") JEE (batch 4) (batch 4)
                (replicate 4 (sample_question (VNum (num_of_nat 1))) ++ [string_explanation_item])
                eq_refl eq_refl eq_refl eq_refl)
      as (processed & Hp & _ & Hlt & _); [repeat constructor|].
    injection Hp as <-. apply Hlt. vm_compute. lia.
  - destruct (getTestQuestions_five_valid_or_fails (always 200 (batch 5)) no_parse no_text
                (lit "sums") JEE (batch 5) (batch 5)
                (replicate 5 (sample_question (VNum (num_of_nat 1))) ++ [string_explanation_item])
                eq_refl eq_refl eq_refl eq_refl)
      as (processed & Hp & _ & _ & Hge); [repeat constructor|].
    injection Hp as <-. eexists. split; [apply Hge; vm_compute; lia | reflexivity].
Defined.

(** The items of a [questions] array are not all mapped: on six well-formed
    questions followed by null the read of [q.text] raises in the mapping,
    and the call neither returns the six nor fails with a count. *)
Lemma getTestQuestions_null_item_neither_returns_nor_counts :
  get_opt six_and_null "questions" =
    VArr (replicate 6 (sample_question (VNum (num_of_nat 1))) ++ [VNull]) /\
  length (valid_among (replicate 6 (sample_question (VNum (num_of_nat 1))))) = 6 /\
  getTestQuestions (always 200 six_and_null) no_parse no_text (lit "sums") JEE =
    Run [LogError "Test generation error:" TypeError]
        (Throw (FailedToGenerateTestQuestions TypeError)).
Proof. repeat split. Qed.

Lemma process_question_Ok (ToString : value -> str) (topic : str) (examType : exam)
    (index : nat) (q mapped : value) :
  process_question ToString topic examType index q = Ok mapped ->
  get_opt mapped "explanation" = or_else (get_opt q "explanation") (VStr []).
Proof.
  unfold process_question. destruct q; simpl; try discriminate;
    intros H; inversion H; reflexivity.
Qed.

Lemma code_valid_explanation (q : value) :
  code_valid q ->
  (exists fs, get_opt q "explanation" = VObj fs) /\
  nonblank_string 5 (get_opt (get_opt q "explanation") "correct") /\
  nonblank_string 5 (get_opt (get_opt q "explanation") "key_point").
Proof.
  intros [_ _ _ Hc Hk]. split; [|now split].
  destruct Hc as (s & Hs & _).
  destruct (get_opt q "explanation"); try discriminate. eauto.
Qed.

(** C8: an item whose explanation is absent or a plain string is mapped
    with [q.explanation || '']: the empty string when absent, the string
    itself otherwise. That string has no [correct] and no [key_point], the
    mapped question fails [validateQuestionFormat] and the filter drops it.
    Hence every question [getTestQuestions] returns has an object for
    explanation, with non-blank [correct] and [key_point]. *)
Theorem getTestQuestions_returns_object_explanations :
  (forall ToString topic examType index q mapped,
     process_question ToString topic examType index q = Ok mapped ->
     forall s, get_opt q "explanation" = VUndefined /\ s = [] \/ get_opt q "explanation" = VStr s ->
     get_opt mapped "explanation" = VStr s /\
     get_opt (get_opt mapped "explanation") "correct" = VUndefined /\
     get_opt (get_opt mapped "explanation") "key_point" = VUndefined /\
     outcome (validateQuestionFormat mapped) = Ok false /\
     forall processed, mapped ∉ valid_among processed) /\
  (forall fetch JSON_parse ToString topic examType returned,
     outcome (getTestQuestions fetch JSON_parse ToString topic examType) = Ok returned ->
     exists questions, returned = VArr questions /\
       Forall (fun q =>
                 (exists fs, get_opt q "explanation" = VObj fs) /\
                 nonblank_string 5 (get_opt (get_opt q "explanation") "correct") /\
                 nonblank_string 5 (get_opt (get_opt q "explanation") "key_point"))
              questions).
Proof.
  split.
  - intros ToString topic examType index q mapped Hm s Hq.
    apply process_question_Ok in Hm.
    assert (Hs : get_opt mapped "explanation" = VStr s).
    { rewrite Hm. destruct Hq as [[-> ->] | ->]; [reflexivity|].
      unfold or_else. simpl. destruct (str_eqb s []) eqn:E; [|reflexivity].
      apply str_eqb_eq in E. now subst. }
    assert (Hf : passes mapped = false).
    { apply passes_false_not_valid, malformed_not_valid, explanation_not_an_object.
      intros fs. rewrite Hs. discriminate. }
    split; [assumption|]. rewrite Hs. repeat split.
    + now rewrite validateQuestionFormat_outcome, Hf.
    + intros processed Hin. unfold valid_among in Hin.
      apply list_elem_of_filter in Hin as [Hin _]. congruence.
  - intros fetch JSON_parse ToString topic examType returned Hr.
    apply getTestQuestions_Ok_inv in Hr as [processed ->].
    eexists. split; [reflexivity|].
    apply list.Forall_forall. intros q Hq.
    apply (elem_of_prefix _ (valid_among processed)) in Hq; [|apply prefix_take].
    apply list_elem_of_filter in Hq as [Hq _].
    now apply code_valid_explanation, passes_code_valid.
Qed.

Lemma getTestQuestions_returns_object_explanations_witness :
  (exists mapped,
     process_question no_text (lit "sums") JEE 5 string_explanation_item = Ok mapped /\
     get_opt mapped "explanation" = VStr (lit "2 + 2 = 4") /\
     outcome (validateQuestionFormat mapped) = Ok false) /\
  (exists questions,
     outcome (getTestQuestions (always 200 (batch 5)) no_parse no_text (lit "sums") JEE)
       = Ok (VArr questions) /\
     Forall (fun q => exists fs, get_opt q "explanation" = VObj fs) questions).
Proof.
  split.
  - eexists. split; [reflexivity|].
    destruct (proj1 getTestQuestions_returns_object_explanations no_text (lit "sums") JEE 5
                string_explanation_item _ eq_refl (lit "2 + 2 = 4") (or_intror eq_refl))
      as (He & _ & _ & Hv & _).
    split; assumption.
  - destruct (outcome (getTestQuestions (always 200 (batch 5)) no_parse no_text (lit "sums") JEE))
      as [returned|] eqn:Hr; [|vm_compute in Hr; discriminate Hr].
    destruct (proj2 getTestQuestions_returns_object_explanations _ _ _ _ _ returned Hr)
      as (questions & -> & Hall).
    exists questions. split; [reflexivity|].
    apply list.Forall_forall. intros q Hq.
    rewrite list.Forall_forall in Hall. exact (proj1 (Hall q Hq)).
Defined.

(** ** streamExploreContent *)

Lemma gemini_parts_truthy (data : value) :
  nullish data = false ->
  exists parts, gemini_parts data = Ok parts /\ truthy parts = truthy (parts_of data).
Proof.
  intros Hn. unfold gemini_parts, parts_of. rewrite (get_get_opt data) by assumption.
  unfold mbind, result_bind.
  destruct (truthy (get_opt data "candidates")) eqn:E; eexists; (split; [reflexivity|]).
  - reflexivity.
  - rewrite E. destruct (get_opt data "candidates") as [| | | |[|c s]| |]; try reflexivity;
      simpl in E; discriminate.
Qed.

(** C7 as worded fails: the body [null] is JSON and has nothing at
    [candidates[0].content.parts], yet reading [data.candidates] raises and
    the call throws. *)
Lemma streamExploreContent_null_body_raises :
  truthy (parts_of VNull) = false /\
  streamExploreContent (always 200 VNull) no_parse [] VNull (VArr []) =
    Run [LogError "Stream error:" TypeError] (Throw FailedToStreamContent).
Proof. split; reflexivity. Qed.

(** C7, as the code has it: for a response with a 2xx status whose body is
    a JSON value other than null with nothing, or something falsy, at
    [candidates[0].content.parts], the call returns normally, the callback
    is not invoked and nothing is logged. *)
Theorem streamExploreContent_silent_without_parts
    (fetch : string -> value -> fetch_outcome) (JSON_parse : str -> option value)
    (query : str) (userContext chatHistory : value) (r : response) (data : value) :
  fetch "streamExplore"%string (stream_payload query userContext chatHistory) = Resolves r ->
  ok r = true ->
  body r = Some data ->
  nullish data = false ->
  truthy (parts_of data) = false ->
  streamExploreContent fetch JSON_parse query userContext chatHistory = Run [] (Ok tt).
Proof.
  intros Hf Hok Hb Hn Hp. unfold streamExploreContent. rewrite Hf.
  destruct (gemini_parts_truthy data Hn) as (parts & Hg & Ht). rewrite Hp in Ht.
  unfold mbind, M_bind, lift. simpl. rewrite (ok_not_429 r Hok), Hok. simpl.
  unfold json. rewrite Hb. simpl. rewrite Hg. simpl. rewrite Ht. reflexivity.
Qed.

Lemma streamExploreContent_silent_without_parts_witness :
  streamExploreContent (always 200 (VObj [(lit "error", VStr (lit "overloaded"))])) no_parse
    [] sixteen (VArr []) = Run [] (Ok tt).
Proof.
  apply (streamExploreContent_silent_without_parts
           (always 200 (VObj [(lit "error", VStr (lit "overloaded"))])) no_parse
           [] sixteen (VArr [])
           (Response 200 (Some (VObj [(lit "error", VStr (lit "overloaded"))])))
           (VObj [(lit "error", VStr (lit "overloaded"))])
           eq_refl eq_refl eq_refl eq_refl eq_refl).
Defined.

(** With the expected envelope the callback is invoked once: the text before
    the dashes, the topics renamed, no questions. *)
Example streamExploreContent_hello :
  streamExploreContent (always 200 gemini_hello) parse_T [] sixteen (VArr []) =
    Run [OnChunk (VStr (lit "Hello"))
           (VArr [VObj [(lit "topic", VStr (lit "X")); (lit "type", VStr (lit "t"));
                        (lit "reason", VStr (lit "d"))]])
           VUndefined]
        (Ok tt).
Proof. reflexivity. Qed.


(** * Further properties *)

(** ** makeApiRequest *)

(** X1: [makeApiRequest] returns a value exactly when [fetch] resolves with a
    status in 200..299 and the body is JSON; what it returns is that body. *)
Theorem makeApiRequest_returns_iff (fetch : string -> value -> fetch_outcome)
    (endpoint : string) (payload content : value) :
  outcome (makeApiRequest fetch endpoint payload) = Ok content <->
  exists r, fetch endpoint payload = Resolves r /\ ok r = true /\ body r = Some content.
Proof.
  destruct (fetch endpoint payload) as [r|] eqn:Hf.
  - destruct (ok r) eqn:Hok.
    + rewrite (makeApiRequest_ok fetch endpoint payload r Hf Hok). split.
      * intros H. exists r. destruct (body r); simpl in H; [|discriminate].
        injection H as ->. auto.
      * intros (r' & Hr & _ & Hb). injection Hr as <-. now rewrite Hb.
    + rewrite (makeApiRequest_not_ok fetch endpoint payload r Hf Hok). split; [discriminate|].
      intros (r' & Hr & Hok' & _). injection Hr as <-. congruence.
  - rewrite (makeApiRequest_rejects fetch endpoint payload Hf). split; [discriminate|].
    intros (r' & Hr & _). discriminate.
Qed.

(** X2: a failing [makeApiRequest] always throws "Failed to make API request"
    and has logged exactly one line, the cause: the network error, the
    status outside 200..299, or the body that is not JSON. *)
Theorem makeApiRequest_failure (fetch : string -> value -> fetch_outcome)
    (endpoint : string) (payload : value) (e : error) :
  outcome (makeApiRequest fetch endpoint payload) = Throw e ->
  e = FailedToMakeApiRequest /\
  trace (makeApiRequest fetch endpoint payload) =
    [LogError "API request error:" (request_failure (fetch endpoint payload))].
Proof.
  destruct (fetch endpoint payload) as [r|] eqn:Hf; simpl.
  - destruct (ok r) eqn:Hok.
    + rewrite (makeApiRequest_ok fetch endpoint payload r Hf Hok).
      destruct (body r); simpl; [discriminate|]. intros H. injection H as <-. auto.
    + rewrite (makeApiRequest_not_ok fetch endpoint payload r Hf Hok). simpl.
      intros H. injection H as <-. auto.
  - rewrite (makeApiRequest_rejects fetch endpoint payload Hf). simpl.
    intros H. injection H as <-. auto.
Qed.

Lemma makeApiRequest_failure_witness :
  trace (makeApiRequest (always 503 VNull) "explore" VNull) =
    [LogError "API request error:" (ApiRequestFailed 503)].
Proof.
  exact (proj2 (makeApiRequest_failure (always 503 VNull) "explore" VNull
                  FailedToMakeApiRequest eq_refl)).
Defined.

Lemma makeApiRequest_Throw (fetch : string -> value -> fetch_outcome)
    (endpoint : string) (payload : value) :
  (forall content, outcome (makeApiRequest fetch endpoint payload) <> Ok content) ->
  makeApiRequest fetch endpoint payload =
    Run [LogError "API request error:" (request_failure (fetch endpoint payload))]
        (Throw FailedToMakeApiRequest).
Proof.
  intros Hno. destruct (fetch endpoint payload) as [r|] eqn:Hf; simpl.
  - destruct (ok r) eqn:Hok.
    + rewrite (makeApiRequest_ok fetch endpoint payload r Hf Hok) in Hno |- *.
      destruct (body r) as [content|]; [|reflexivity]. now destruct (Hno content).
    + apply (makeApiRequest_not_ok fetch endpoint payload r Hf Hok).
  - apply (makeApiRequest_rejects fetch endpoint payload Hf).
Qed.

(** ** getExploreContent *)

Lemma first_five_spec (v : value) :
  exists kept, first_five v = VArr kept /\ length kept <= 5 /\
    (forall items, v = VArr items -> kept = take 5 items) /\
    (is_array v = false -> kept = []).
Proof.
  destruct v as [| | | | |items|]; simpl;
    try (exists []; repeat split; [simpl; lia | discriminate]).
  exists (take 5 items). repeat split.
  - rewrite length_take. lia.
  - intros ? H. now injection H as <-.
  - discriminate.
Qed.

Section Explore.
Variable fetch : string -> value -> fetch_outcome.
Variable JSON_parse : str -> option value.
Variable ToString : value -> str.

(** [join] returns exactly when every element converts, and a TypeError is
    all it raises. *)
Lemma join_convertible (sep : str) (items : list value) :
  forallb convertible items = true -> exists s, join ToString sep items = Ok s.
Proof.
  induction items as [|x rest IH]; [now exists []|].
  intros [Hx Hrest]%andb_true_iff. destruct (IH Hrest) as [others Ho].
  assert (Hfirst : exists first, (if nullish x then Ok [] else convert ToString x) = Ok first).
  { unfold convert. rewrite Hx. destruct (nullish x); eauto. }
  destruct Hfirst as [first Hf].
  destruct rest as [|y rest]; simpl; [eauto|].
  simpl in Ho. rewrite Hf. simpl. rewrite Ho. simpl. eauto.
Qed.

Lemma join_not_convertible (sep : str) (items : list value) :
  forallb convertible items = false -> join ToString sep items = Throw TypeError.
Proof.
  induction items as [|x rest IH]; [discriminate|].
  intros H. apply andb_false_iff in H.
  assert (Hx : convertible x = false ->
               (if nullish x then Ok [] else convert ToString x) = Throw TypeError).
  { intros Hc. unfold convert. rewrite Hc. destruct x; try discriminate Hc; reflexivity. }
  destruct (convertible x) eqn:Hc.
  - destruct H as [H|H]; [discriminate|]. specialize (IH H).
    destruct rest as [|y rest]; [discriminate H|].
    change (join ToString sep (x :: y :: rest))
      with (first ← (if nullish x then Ok [] else convert ToString x);
            others ← join ToString sep (y :: rest);
            Ok (first ++ sep ++ others)).
    rewrite IH. unfold convert. rewrite Hc. now destruct (nullish x).
  - specialize (Hx eq_refl). destruct rest as [|y rest]; simpl; [exact Hx|].
    now rewrite Hx.
Qed.

(** The run of [getExploreContent] on a parsed body. *)
Lemma getExploreContent_run (query : str) (userContext content parsed : value) :
  outcome (makeApiRequest fetch "explore" (explore_payload query userContext)) = Ok content ->
  truthy content = true ->
  parse_if_string JSON_parse content = Ok parsed ->
  getExploreContent fetch JSON_parse ToString query userContext =
  if nullish parsed
  then Run [LogError "Explore content error:" TypeError] (Throw FailedToGenerateExploreContent)
  else if explore_complete parsed
  then match join ToString blank_line (explore_paragraphs parsed) with
       | Ok formattedContent =>
           Run [] (Ok (VObj [(lit "content", VStr formattedContent);
                             (lit "relatedTopics", first_five (get_opt parsed "relatedTopics"));
                             (lit "relatedQuestions",
                              first_five (get_opt parsed "relatedQuestions"))]))
       | Throw error =>
           Run [LogError "Explore content error:" error] (Throw FailedToGenerateExploreContent)
       end
  else Run [LogError "Explore content error:" InvalidResponseStructure]
           (Throw FailedToGenerateExploreContent).
Proof.
  intros Hreq Ht Hparse. unfold getExploreContent, explore_paragraphs.
  remember (join ToString blank_line) as joined eqn:Hj.
  rewrite (makeApiRequest_Ok _ _ _ _ Hreq).
  unfold mbind at 1, M_bind. simpl. rewrite Ht. simpl.
  unfold lift. simpl. rewrite Hparse. simpl.
  destruct (nullish parsed) eqn:Hn.
  { destruct parsed; try discriminate Hn; reflexivity. }
  rewrite explore_structure_invalid_spec by assumption. fold (explore_complete parsed).
  destruct (explore_complete parsed) eqn:Hc; simpl; [|reflexivity].
  unfold explore_complete in Hc. rewrite !andb_true_iff in Hc.
  destruct Hc as [[[[_ Hct] _] _] _].
  rewrite !(get_get_opt parsed) by assumption. unfold mbind, result_bind.
  rewrite !(get_get_opt (get_opt parsed "content")) by now apply truthy_not_nullish.
  destruct (joined _); reflexivity.
Qed.

(** X3: given the parsed body, [getExploreContent] returns exactly when
    [domain], [content] and the three paragraphs are all truthy and each
    paragraph converts to a string, and then it logs nothing; otherwise it
    throws "Failed to generate explore content" after logging one cause: a
    TypeError for the body null, "Invalid response structure" for a field
    that is missing or falsy, a TypeError for a paragraph that does not
    convert. *)
Theorem getExploreContent_returns_iff_complete (query : str)
    (userContext content parsed : value) :
  outcome (makeApiRequest fetch "explore" (explore_payload query userContext)) = Ok content ->
  truthy content = true ->
  parse_if_string JSON_parse content = Ok parsed ->
  let run := getExploreContent fetch JSON_parse ToString query userContext in
  let complete := explore_complete parsed in
  let printable := forallb convertible (explore_paragraphs parsed) in
  ((exists result, outcome run = Ok result) <-> complete = true /\ printable = true) /\
  (complete = true -> printable = true -> trace run = []) /\
  (complete = false ->
     outcome run = Throw FailedToGenerateExploreContent /\
     trace run = [LogError "Explore content error:"
                    (if nullish parsed then TypeError else InvalidResponseStructure)]) /\
  (complete = true -> printable = false ->
     outcome run = Throw FailedToGenerateExploreContent /\
     trace run = [LogError "Explore content error:" TypeError]).
Proof.
  intros Hreq Ht Hparse run complete printable. subst run complete printable.
  rewrite (getExploreContent_run query userContext content parsed Hreq Ht Hparse).
  assert (Hnull : nullish parsed = true -> explore_complete parsed = false)
    by (destruct parsed; try discriminate; reflexivity).
  destruct (nullish parsed) eqn:Hn.
  { rewrite (Hnull eq_refl). simpl.
    split; [split; [intros [? ?]; discriminate | intros [? _]; discriminate]|].
    split; [discriminate|]. split; [auto | discriminate]. }
  destruct (explore_complete parsed).
  2:{ simpl. split; [split; [intros [? ?]; discriminate | intros [? _]; discriminate]|].
      split; [discriminate|]. split; [auto | discriminate]. }
  destruct (forallb convertible (explore_paragraphs parsed)) eqn:Hp.
  - destruct (join_convertible blank_line _ Hp) as [s ->]. simpl.
    split; [split; eauto|]. split; [auto|]. split; discriminate.
  - rewrite (join_not_convertible blank_line _ Hp). simpl.
    split; [split; [intros [? ?]; discriminate | intros [_ ?]; discriminate]|].
    split; [discriminate|]. split; [discriminate | auto].
Qed.

(** X4: in what [getExploreContent] returns, [relatedTopics] and
    [relatedQuestions] are arrays of at most five entries: the first five of
    the body's array, or none when the body has no array there. *)
Theorem getExploreContent_related_at_most_five (query : str)
    (userContext content parsed result : value) :
  outcome (makeApiRequest fetch "explore" (explore_payload query userContext)) = Ok content ->
  truthy content = true ->
  parse_if_string JSON_parse content = Ok parsed ->
  outcome (getExploreContent fetch JSON_parse ToString query userContext) = Ok result ->
  Forall (fun name =>
            exists kept, get_opt result name = VArr kept /\ length kept <= 5 /\
              (forall items, get_opt parsed name = VArr items -> kept = take 5 items) /\
              (is_array (get_opt parsed name) = false -> kept = []))
         ["relatedTopics"; "relatedQuestions"]%string.
Proof.
  intros Hreq Ht Hparse.
  rewrite (getExploreContent_run query userContext content parsed Hreq Ht Hparse).
  destruct (nullish parsed); [discriminate|].
  destruct (explore_complete parsed); [|discriminate].
  destruct (join ToString blank_line (explore_paragraphs parsed)); [|discriminate].
  simpl. intros H. injection H as <-.
  repeat constructor.
  - apply (first_five_spec (get_opt parsed "relatedTopics")).
  - apply (first_five_spec (get_opt parsed "relatedQuestions")).
Qed.
End Explore.

Lemma getExploreContent_returns_iff_complete_witness :
  (exists result,
     outcome (getExploreContent (always 200 explore_abc) no_parse no_text [] sixteen)
       = Ok result) /\
  trace (getExploreContent (always 200 explore_ab) no_parse no_text [] sixteen) =
    [LogError "Explore content error:" InvalidResponseStructure] /\
  trace (getExploreContent (always 200 explore_unprintable) no_parse no_text [] sixteen) =
    [LogError "Explore content error:" TypeError].
Proof.
  split; [|split].
  - apply (proj1 (getExploreContent_returns_iff_complete (always 200 explore_abc) no_parse
                    no_text [] sixteen explore_abc explore_abc eq_refl eq_refl eq_refl)).
    split; reflexivity.
  - apply (proj1 (proj2 (proj2 (getExploreContent_returns_iff_complete
                    (always 200 explore_ab) no_parse no_text [] sixteen explore_ab explore_ab
                    eq_refl eq_refl eq_refl)))).
    reflexivity.
  - apply (proj2 (proj2 (proj2 (getExploreContent_returns_iff_complete
                    (always 200 explore_unprintable) no_parse no_text [] sixteen
                    explore_unprintable explore_unprintable eq_refl eq_refl eq_refl))));
      reflexivity.
Defined.

Lemma getExploreContent_related_at_most_five_witness :
  exists kept,
    get_opt (returned_or VUndefined
               (getExploreContent (always 200 explore_seven) no_parse no_text [] sixteen))
      "relatedTopics" = VArr kept /\
    length kept <= 5.
Proof.
  pose proof (getExploreContent_related_at_most_five (always 200 explore_seven) no_parse
                no_text [] sixteen explore_seven explore_seven
                (returned_or VUndefined
                   (getExploreContent (always 200 explore_seven) no_parse no_text [] sixteen))
                eq_refl eq_refl eq_refl eq_refl) as H.
  destruct (Forall_inv H) as (kept & Hk & Hlen & _). exists kept. auto.
Defined.


(** ** getTestQuestions *)

Lemma process_question_mapped (ToString : value -> str) (topic : str) (examType : exam)
    (index : nat) (q : value) :
  process_question ToString topic examType index q =
  if nullish q then Throw TypeError else Ok (mapped_question ToString topic examType index q).
Proof. destruct q; reflexivity. Qed.

Lemma process_questions_lookup (ToString : value -> str) (topic : str) (examType : exam)
    (questions : list value) :
  forall (index : nat) (processed : list value),
  process_questions ToString topic examType index questions = Ok processed ->
  length processed = length questions /\
  forall i p, processed !! i = Some p ->
    exists q, questions !! i = Some q /\ nullish q = false /\
              p = mapped_question ToString topic examType (index + i) q.
Proof.
  induction questions as [|q qs IH]; intros index processed; simpl.
  - intros H. injection H as <-. split; [reflexivity|]. intros i p H. discriminate.
  - rewrite process_question_mapped. destruct (nullish q) eqn:Hn; [discriminate|]. simpl.
    destruct (process_questions ToString topic examType (S index) qs) as [ps|] eqn:Hps;
      [|discriminate].
    simpl. intros H. injection H as <-.
    destruct (IH (S index) ps Hps) as [Hlen Hall].
    split; [simpl; now rewrite Hlen|].
    intros [|i] p Hp; simpl in Hp.
    + injection Hp as <-. exists q. rewrite Nat.add_0_r. auto.
    + destruct (Hall i p Hp) as (q' & Hq' & Hn' & ->). exists q'.
      replace (index + S i) with (S index + i) by lia. auto.
Qed.

Lemma process_questions_null (ToString : value -> str) (topic : str) (examType : exam)
    (questions : list value) :
  forall index, Exists (fun q => nullish q = true) questions ->
  process_questions ToString topic examType index questions = Throw TypeError.
Proof.
  induction questions as [|q qs IH]; intros index H; [inversion H|].
  simpl. rewrite process_question_mapped.
  destruct (nullish q) eqn:Hn; [reflexivity|]. simpl.
  rewrite IH; [reflexivity|]. inversion H; subst; [congruence | assumption].
Qed.

Lemma StronglySorted_sublist {A} (R : relation A) (l k : list A) :
  l `sublist_of` k -> StronglySorted R k -> StronglySorted R l.
Proof.
  induction 1 as [|x l k Hs IH|x l k Hs IH]; intros Hk.
  - apply SSorted_nil.
  - inversion Hk as [|? ? Hk' Hall]; subst. apply SSorted_cons; [now apply IH|].
    apply list.Forall_forall. intros y Hy. rewrite list.Forall_forall in Hall.
    apply Hall. eapply elem_of_sublist; eassumption.
  - inversion Hk; subst. now apply IH.
Qed.

Lemma process_questions_sorted (ToString : value -> str) (topic : str) (examType : exam)
    (questions : list value) :
  forall (index : nat) (processed : list value),
  process_questions ToString topic examType index questions = Ok processed ->
  StronglySorted no_harder processed /\
  Forall (fun p => exists d, get_opt p "difficulty" = VNum (num_of_nat d) /\
                             index / 5 + 1 <= d) processed.
Proof.
  induction questions as [|q qs IH]; intros index processed; simpl.
  - intros H. injection H as <-. split; [apply SSorted_nil | apply Forall_nil_2].
  - rewrite process_question_mapped. destruct (nullish q); [discriminate|]. simpl.
    destruct (process_questions ToString topic examType (S index) qs) as [ps|] eqn:Hps;
      [|discriminate].
    simpl. intros H. injection H as <-.
    destruct (IH (S index) ps Hps) as [Hs Hall].
    assert (Hle : index / 5 + 1 <= S index / 5 + 1).
    { apply Nat.add_le_mono_r, Nat.Div0.div_le_mono. apply Nat.le_succ_diag_r. }
    split.
    + apply SSorted_cons; [assumption|].
      eapply list.Forall_impl; [exact Hall|]. intros p (d & Hd & Hle').
      exists (index / 5 + 1), d. split; [reflexivity|]. split; [assumption|].
      exact (Nat.le_trans _ _ _ Hle Hle').
    + apply Forall_cons_2.
      * exists (index / 5 + 1). split; [reflexivity | apply Nat.le_refl].
      * eapply list.Forall_impl; [exact Hall|]. intros p (d & Hd & Hle'). exists d.
        split; [assumption|].
        exact (Nat.le_trans _ _ _ Hle Hle').
Qed.

Section Test.
Variable fetch : string -> value -> fetch_outcome.
Variable JSON_parse : str -> option value.
Variable ToString : value -> str.

Lemma getTestQuestions_Ok_mapped (topic : str) (examType : exam) (returned : value) :
  outcome (getTestQuestions fetch JSON_parse ToString topic examType) = Ok returned ->
  exists questions processed,
    process_questions ToString topic examType 0 questions = Ok processed /\
    5 <= length (valid_among processed) /\
    returned = VArr (take 15 (valid_among processed)).
Proof.
  unfold getTestQuestions. rewrite outcome_try_catch.
  destruct (outcome (_ ≫= _)) as [r|e] eqn:E; [|discriminate].
  intros H; inversion H; subst r; clear H.
  apply outcome_bind_Ok in E as (content & _ & E).
  destruct (truthy content); simpl in E. 2: discriminate E.
  apply outcome_bind_Ok in E as (parsed & _ & E).
  destruct (get_opt parsed "questions") as [| | | | |questions|]; try discriminate.
  apply outcome_bind_Ok in E as (processed & Hp & E).
  apply outcome_bind_Ok in E as (valid & Hv & E).
  rewrite outcome_filter_valid in Hv. inversion Hv; subst valid.
  exists questions, processed. split; [exact Hp|].
  destruct (length (valid_among processed)) as [|[|[|[|[|n]]]]]; simpl in E;
    try discriminate E.
  split; [lia | now inversion E].
Qed.

(** X5: whatever [getTestQuestions] returns is an array of 5 to 15 questions,
    each of which passes [validateQuestionFormat] and carries the call's
    topic and exam type, the question type "conceptual" and the age group
    "16-18"; their difficulties never decrease along the array. *)
Theorem getTestQuestions_returns_5_to_15_valid (topic : str) (examType : exam)
    (returned : value) :
  outcome (getTestQuestions fetch JSON_parse ToString topic examType) = Ok returned ->
  exists questions,
    returned = VArr questions /\ 5 <= length questions <= 15 /\
    Forall (fun q => outcome (validateQuestionFormat q) = Ok true /\
                     get_opt q "topic" = VStr topic /\
                     get_opt q "examType" = VStr (exam_name examType) /\
                     get_opt q "questionType" = VStr (lit "conceptual") /\
                     get_opt q "ageGroup" = VStr (lit "16-18")) questions /\
    StronglySorted no_harder questions.
Proof.
  intros Hr. destruct (getTestQuestions_Ok_mapped topic examType returned Hr)
    as (questions & processed & Hp & Hlen & ->).
  eexists. split; [reflexivity|]. split; [rewrite length_take; lia|]. split.
  - apply list.Forall_forall. intros q Hq.
    apply (elem_of_prefix _ (valid_among processed)) in Hq; [|apply prefix_take].
    apply list_elem_of_filter in Hq as [Hq Hin].
    split; [now rewrite validateQuestionFormat_outcome, Hq|].
    apply list_elem_of_lookup in Hin as [i Hi].
    destruct (process_questions_lookup ToString topic examType questions 0 processed Hp)
      as [_ Hall].
    destruct (Hall i q Hi) as (q0 & _ & _ & ->). repeat split.
  - eapply StronglySorted_sublist;
      [|exact (proj1 (process_questions_sorted ToString topic examType questions 0 processed Hp))].
    etrans; [apply sublist_take | apply sublist_filter].
Qed.

(** X6: a body whose [questions] is missing or no array makes
    [getTestQuestions] log the body, then the error, and throw "Failed to
    generate test questions: Invalid response structure". *)
Theorem getTestQuestions_without_questions_array (topic : str) (examType : exam)
    (content parsed : value) :
  outcome (makeApiRequest fetch "test" (test_payload topic examType)) = Ok content ->
  truthy content = true ->
  parse_if_string JSON_parse content = Ok parsed ->
  is_array (get_opt parsed "questions") = false ->
  getTestQuestions fetch JSON_parse ToString topic examType =
    Run [LogValue "Invalid response structure:" parsed;
         LogError "Test generation error:" InvalidResponseStructure]
        (Throw (FailedToGenerateTestQuestions InvalidResponseStructure)).
Proof.
  intros Hreq Ht Hparse Hq. unfold getTestQuestions.
  rewrite (makeApiRequest_Ok _ _ _ _ Hreq).
  unfold mbind at 1, M_bind. simpl. rewrite Ht. simpl.
  unfold lift. simpl. rewrite Hparse. simpl.
  destruct (get_opt parsed "questions"); try discriminate Hq; reflexivity.
Qed.

(** X7: one null item in [questions] makes the whole call fail with a
    TypeError as its cause, however many well-formed items the array holds:
    the item is not dropped like an invalid question. *)
Theorem getTestQuestions_null_item_fails (topic : str) (examType : exam)
    (content parsed : value) (questions : list value) :
  outcome (makeApiRequest fetch "test" (test_payload topic examType)) = Ok content ->
  truthy content = true ->
  parse_if_string JSON_parse content = Ok parsed ->
  get_opt parsed "questions" = VArr questions ->
  Exists (fun q => nullish q = true) questions ->
  getTestQuestions fetch JSON_parse ToString topic examType =
    Run [LogError "Test generation error:" TypeError]
        (Throw (FailedToGenerateTestQuestions TypeError)).
Proof.
  intros Hreq Ht Hparse Hq Hnull. unfold getTestQuestions.
  rewrite (makeApiRequest_Ok _ _ _ _ Hreq).
  unfold mbind at 1, M_bind. simpl. rewrite Ht. simpl.
  unfold lift. simpl. rewrite Hparse. simpl. rewrite Hq.
  unfold mbind at 1, M_bind. simpl.
  rewrite (process_questions_null ToString topic examType questions 0 Hnull). reflexivity.
Qed.
End Test.

Lemma getTestQuestions_returns_5_to_15_valid_witness :
  exists questions,
    returned_or VUndefined
      (getTestQuestions (always 200 (batch 5)) no_parse no_text (lit "sums") JEE)
      = VArr questions /\
    5 <= length questions <= 15.
Proof.
  destruct (getTestQuestions_returns_5_to_15_valid (always 200 (batch 5)) no_parse no_text
              (lit "sums") JEE
              (returned_or VUndefined
                 (getTestQuestions (always 200 (batch 5)) no_parse no_text (lit "sums") JEE))
              eq_refl) as (questions & Hq & Hlen & _).
  exists questions. auto.
Defined.

Lemma getTestQuestions_without_questions_array_witness :
  getTestQuestions (always 200 explore_abc) no_parse no_text (lit "sums") NEET =
    Run [LogValue "Invalid response structure:" explore_abc;
         LogError "Test generation error:" InvalidResponseStructure]
        (Throw (FailedToGenerateTestQuestions InvalidResponseStructure)).
Proof.
  exact (getTestQuestions_without_questions_array (always 200 explore_abc) no_parse no_text
           (lit "sums") NEET explore_abc explore_abc eq_refl eq_refl eq_refl eq_refl).
Defined.

Lemma getTestQuestions_null_item_fails_witness :
  getTestQuestions (always 200 batch_with_null) no_parse no_text (lit "sums") JEE =
    Run [LogError "Test generation error:" TypeError]
        (Throw (FailedToGenerateTestQuestions TypeError)).
Proof.
  apply (getTestQuestions_null_item_fails (always 200 batch_with_null) no_parse no_text
           (lit "sums") JEE batch_with_null batch_with_null
           [sample_question (VNum (num_of_nat 1)); VNull] eq_refl eq_refl eq_refl eq_refl).
  apply Exists_cons_tl, Exists_cons_hd. reflexivity.
Defined.


(** X8: the mapping keeps the number of items, and the item at index [i] gets
    the difficulty [floor(i/5) + 1], the call's topic and exam type, the
    question type "conceptual" and the age group "16-18". *)
Theorem process_questions_fixed_fields (ToString : value -> str) (topic : str)
    (examType : exam) (questions processed : list value) :
  process_questions ToString topic examType 0 questions = Ok processed ->
  length processed = length questions /\
  forall i p, processed !! i = Some p ->
    get_opt p "difficulty" = VNum (num_of_nat (i / 5 + 1)) /\
    get_opt p "topic" = VStr topic /\
    get_opt p "examType" = VStr (exam_name examType) /\
    get_opt p "questionType" = VStr (lit "conceptual") /\
    get_opt p "ageGroup" = VStr (lit "16-18").
Proof.
  intros Hp.
  destruct (process_questions_lookup ToString topic examType questions 0 processed Hp)
    as [Hlen Hall].
  split; [assumption|]. intros i p Hi.
  destruct (Hall i p Hi) as (q & _ & _ & ->). repeat split.
Qed.

(** Of six questions the sixth, at index 5, has difficulty 2. *)
Lemma process_questions_fixed_fields_witness :
  get_opt (mapped_question no_text (lit "sums") JEE 5 (sample_question (VNum (num_of_nat 1))))
    "difficulty" = VNum (num_of_nat 2).
Proof.
  apply (proj2 (process_questions_fixed_fields no_text (lit "sums") JEE
                  (replicate 6 (sample_question (VNum (num_of_nat 1))))
                  (imap (fun i q => mapped_question no_text (lit "sums") JEE i q)
                     (replicate 6 (sample_question (VNum (num_of_nat 1)))))
                  eq_refl) 5 _ eq_refl).
Defined.

Lemma nonblank_string_truthy (min : nat) (v : value) :
  nonblank_string min v -> truthy v = true.
Proof.
  intros (s & -> & Hs & _). simpl. apply negb_true_iff, str_eqb_neq.
  intros ->. now apply Hs.
Qed.

(** X9: an item that is well formed except that its [correctAnswer] is no
    number is mapped to a question with [correctAnswer] 0, and that question
    passes the validation: the first option is taken for the right one. *)
Theorem process_question_defaults_answer_to_0 (ToString : value -> str) (topic : str)
    (examType : exam) (index : nat) (q p : value) (opts : list value) :
  process_question ToString topic examType index q = Ok p ->
  is_number (get_opt q "correctAnswer") = false ->
  nonblank_string 10 (get_opt q "text") ->
  get_opt q "options" = VArr opts -> length opts = 4 ->
  Forall (nonblank_string 0) opts -> NoDup opts ->
  nonblank_string 5 (get_opt (get_opt q "explanation") "correct") ->
  nonblank_string 5 (get_opt (get_opt q "explanation") "key_point") ->
  outcome (validateQuestionFormat p) = Ok true /\
  get_opt p "correctAnswer" = VNum (num_of_nat 0).
Proof.
  rewrite process_question_mapped. destruct (nullish q); [discriminate|].
  intros H Hn Ht Ho H4 Hall Hnd Hc Hk. injection H as <-.
  assert (He : truthy (get_opt q "explanation") = true).
  { destruct Hc as (s & Hs & _). destruct (get_opt q "explanation"); try discriminate Hs.
    reflexivity. }
  assert (Hca : get_opt (mapped_question ToString topic examType index q) "correctAnswer"
                = VNum (num_of_nat 0)).
  { change (get_opt (mapped_question ToString topic examType index q) "correctAnswer")
      with (if is_number (get_opt q "correctAnswer") then get_opt q "correctAnswer"
            else VNum (num_of_nat 0)).
    now rewrite Hn. }
  split; [|exact Hca].
  rewrite validateQuestionFormat_outcome. f_equal. apply passes_code_valid.
  split.
  - change (nonblank_string 10 (or_else (get_opt q "text") (VStr []))).
    unfold or_else. now rewrite (nonblank_string_truthy 10 _ Ht).
  - exists opts.
    change (get_opt (mapped_question ToString topic examType index q) "options")
      with (if is_array (get_opt q "options") then get_opt q "options" else VArr []).
    rewrite Ho. simpl. auto.
  - exists (num_of_nat 0). split; [exact Hca|]. split; reflexivity.
  - change (get_opt (mapped_question ToString topic examType index q) "explanation")
      with (or_else (get_opt q "explanation") (VStr [])).
    unfold or_else. now rewrite He.
  - change (get_opt (mapped_question ToString topic examType index q) "explanation")
      with (or_else (get_opt q "explanation") (VStr [])).
    unfold or_else. now rewrite He.
Qed.

(** The sample question is well formed. *)
Lemma sample_question_code_valid : code_valid (sample_question (VNum (num_of_nat 1))).
Proof. apply passes_code_valid. reflexivity. Qed.

Lemma sample_options_well_formed :
  Forall (nonblank_string 0) sample_options /\ NoDup sample_options.
Proof.
  destruct sample_question_code_valid as [_ (options & Ho & _ & Hall & Hnd) _ _ _].
  change (VArr sample_options = VArr options) in Ho. injection Ho as <-. auto.
Qed.

Lemma process_question_defaults_answer_to_0_witness :
  outcome (validateQuestionFormat
             (mapped_question no_text (lit "sums") JEE 0 (sample_question (VStr (lit "B")))))
    = Ok true /\
  get_opt (mapped_question no_text (lit "sums") JEE 0 (sample_question (VStr (lit "B"))))
    "correctAnswer" = VNum (num_of_nat 0).
Proof.
  exact (process_question_defaults_answer_to_0 no_text (lit "sums") JEE 0
           (sample_question (VStr (lit "B")))
           (mapped_question no_text (lit "sums") JEE 0 (sample_question (VStr (lit "B"))))
           sample_options eq_refl eq_refl
           (wf_text _ _ sample_question_code_valid) eq_refl eq_refl
           (proj1 sample_options_well_formed) (proj2 sample_options_well_formed)
           (wf_correct _ _ sample_question_code_valid)
           (wf_key_point _ _ sample_question_code_valid)).
Defined.

(** ** shuffleOptionsAndAnswer and validateQuestionFormat *)

Lemma shuffle_nonnegative_answer_of (rand : nat -> draw) (q shuffled : value) (n : number) :
  shuffleOptionsAndAnswer rand q = Ok shuffled ->
  get_opt shuffled "correctAnswer" = VNum n -> num_lt n 0 = false ->
  exists options answer, answer_of q options answer.
Proof.
  intros Hs Hn Hlt.
  destruct (shuffle_Ok_inv rand q shuffled Hs) as (fs & options & -> & Ho).
  destruct (shuffled_options rand fs options Ho) as (s' & o' & Hs' & _ & _ & Hca & _).
  assert (s' = shuffled) by congruence. subst s'.
  rewrite Hn in Hca. injection Hca as ->.
  unfold findIndex in Hlt.
  destruct (list_find _ _) as [[i y]|] eqn:E; [|discriminate Hlt].
  apply list_find_Some in E as (Hi & Hy & _).
  apply list_elem_of_lookup_2 in Hi.
  unfold shuffled_tagged in Hi. rewrite fisher_yates_Permutation in Hi.
  apply list_elem_of_lookup in Hi as [k Hk]. rewrite list_lookup_imap in Hk.
  destruct (options !! k) as [o|] eqn:Eo; [|discriminate Hk].
  injection Hk as <-. simpl in Hy.
  exists options, o. split; [assumption|]. exists k. auto.
Qed.

Lemma is_integer_num_of_Z (z : Z) : is_integer (num_of_Z z).
Proof. exists z. reflexivity. Qed.


Lemma within_0_3_num_of_nat (k : nat) : within_0_3 (num_of_nat k) <-> k <= 3.
Proof.
  unfold within_0_3, num_of_nat, num_lt, num_gt, Qlt_bool.
  rewrite !negb_false_iff, !Qle_bool_iff. unfold Qle. simpl. lia.
Qed.

Lemma strict_eq_index_num (k : nat) (n : number) :
  strict_eq_index k (VNum n) = true ->
  is_integer n /\ (within_0_3 n <-> k <= 3).
Proof.
  destruct n as [q| | |]; simpl; try discriminate.
  intros H. apply Qeq_bool_iff in H. split.
  - exists (Z.of_nat k). now symmetry.
  - rewrite <- within_0_3_num_of_nat.
    unfold within_0_3, num_of_nat, num_lt, num_gt, Qlt_bool.
    rewrite !negb_false_iff, !Qle_bool_iff. now rewrite H.
Qed.

Lemma integer_within_index (n : number) :
  is_integer n -> within_0_3 n -> exists k, k <= 3 /\ strict_eq_index k (VNum n) = true.
Proof.
  destruct n as [q| | |]; simpl; try contradiction.
  intros [z Hz] [H0 H3]. unfold Qlt_bool in H0, H3.
  apply negb_false_iff, Qle_bool_iff in H0, H3. rewrite Hz in H0, H3.
  unfold Qle in H0, H3. simpl in H0, H3.
  exists (Z.to_nat z). split; [lia|].
  apply Qeq_bool_iff. rewrite Hz. rewrite Z2Nat.id by lia. reflexivity.
Qed.

Lemma shuffle_well_formed (rand : nat -> draw) (q : value) (options : list value)
    (answer : value) :
  answer_of q options answer ->
  length options = 4 -> Forall (nonblank_string 0) options -> NoDup options ->
  exists shuffled options' k,
    shuffleOptionsAndAnswer rand q = Ok shuffled /\
    get_opt shuffled "options" = VArr options' /\ options' ≡ₚ options /\
    length options' = 4 /\ Forall (nonblank_string 0) options' /\ NoDup options' /\
    get_opt shuffled "correctAnswer" = VNum (num_of_nat k) /\ k <= 3 /\
    options' !! k = Some answer /\
    get_opt shuffled "text" = get_opt q "text" /\
    get_opt shuffled "explanation" = get_opt q "explanation".
Proof.
  intros Ha H4 Hall Hnd.
  destruct (shuffle_keeps rand q options answer Ha)
    as (s & options' & Hs & [Ho' (k & Hk & Hans)] & Hp).
  destruct (shuffle_Ok_inv rand q s Hs) as (fs & o & -> & Ho).
  destruct (shuffled_options rand fs o Ho) as (s' & o' & Hs' & _ & _ & Hca & _).
  assert (s' = s) by congruence. subst s'.
  assert (Hk4 : k < 4).
  { apply lookup_lt_Some in Hans. rewrite Hp in Hans. lia. }
  assert (Hfi : get_opt s "correctAnswer" = VNum (num_of_nat k)).
  { rewrite Hca in Hk |- *. simpl in Hk. apply Qeq_bool_iff in Hk.
    apply (proj1 (inject_Z_injective _ _)) in Hk. unfold num_of_nat. now rewrite Hk. }
  exists s, options', k. split; [assumption|]. split; [assumption|]. split; [assumption|].
  split; [now rewrite Hp|]. split; [now rewrite Hp|]. split; [now rewrite Hp|].
  split; [assumption|]. split; [lia|]. split; [assumption|].
  rewrite (shuffle_object rand fs o Ho) in Hs. injection Hs as <-.
  unfold get_opt. rewrite !field_set_field_ne by discriminate. auto.
Qed.

(** X10: on a question that passes the validation the shuffle returns, and
    what it returns passes the validation again exactly when [correctAnswer]
    was an integer: the validation lets a fractional or NaN answer
    through, the shuffle followed by the validation does not. *)
Theorem shuffle_keeps_validity_iff_integer (rand : nat -> draw) (q : value) :
  code_valid q ->
  exists shuffled,
    shuffleOptionsAndAnswer rand q = Ok shuffled /\
    (code_valid shuffled <-> spec_valid q).
Proof.
  intros [Ht (options & Ho & H4 & Hall & Hnd) (n & Hn & Hin) Hc Hk].
  assert (Hq : exists fs, q = VObj fs) by (destruct q; try discriminate Ho; eauto).
  destruct Hq as [fs ->].
  destruct (shuffled_options rand fs options Ho) as (s & o' & Hs & Ho' & _ & Hca & Hp).
  exists s. split; [assumption|]. split.
  - intros [_ _ (m & Hm & Hlt & _) _ _].
    destruct (shuffle_nonnegative_answer_of rand _ s m Hs Hm Hlt)
      as (o & answer & Ho2 & k & Hk2 & _).
    rewrite Hn in Hk2. apply strict_eq_index_num in Hk2 as [Hint _].
    split; [assumption | exists options; auto | | assumption | assumption].
    exists n. split; [assumption|]. now split.
  - intros [_ _ (m & Hm & Hint & Hw) _ _].
    assert (m = n) by congruence. subst m.
    destruct (integer_within_index n Hint Hw) as (k & Hk3 & Hke).
    destruct (lookup_lt_is_Some_2 options k) as [answer Hans]; [lia|].
    assert (Ha : answer_of (VObj fs) options answer).
    { split; [assumption|]. exists k. rewrite Hn. auto. }
    destruct (shuffle_well_formed rand _ options answer Ha H4 Hall Hnd)
      as (s' & o2 & k' & Hs' & Ho2 & _ & H4' & Hall' & Hnd' & Hca' & Hk' & _ & Htext & Hexp).
    assert (s' = s) by congruence. subst s'.
    split.
    + now rewrite Htext.
    + exists o2. auto.
    + exists (num_of_nat k'). split; [assumption|]. now apply within_0_3_num_of_nat.
    + now rewrite Hexp.
    + now rewrite Hexp.
Qed.

Lemma shuffle_keeps_validity_iff_integer_witness :
  exists shuffled,
    shuffleOptionsAndAnswer halves (sample_question (VNum (num_of_nat 1))) = Ok shuffled /\
    (code_valid shuffled <-> spec_valid (sample_question (VNum (num_of_nat 1)))).
Proof.
  exact (shuffle_keeps_validity_iff_integer halves (sample_question (VNum (num_of_nat 1)))
           sample_question_code_valid).
Defined.


(** X11: [shuffleOptionsAndAnswer] raises exactly when [options] is no array
    (missing included), and a TypeError is all it ever raises. *)
Theorem shuffle_raises_iff_options_not_an_array (rand : nat -> draw) (q : value) :
  (shuffleOptionsAndAnswer rand q = Throw TypeError <-> is_array (get_opt q "options") = false) /\
  (forall e, shuffleOptionsAndAnswer rand q = Throw e -> e = TypeError).
Proof.
  destruct (get_opt q "options") as [| | | | |options|] eqn:Ho.
  all: try (assert (Hs : shuffleOptionsAndAnswer rand q = Throw TypeError)
              by (unfold shuffleOptionsAndAnswer; destruct q as [| | | | | |fs];
                  try reflexivity; simpl in *; rewrite Ho; reflexivity);
            rewrite Hs; split; [split; reflexivity | intros e He; congruence]).
  assert (Hq : exists fs, q = VObj fs) by (destruct q; try discriminate Ho; eauto).
  destruct Hq as [fs ->].
  rewrite (shuffle_object rand fs options Ho). simpl.
  split; [split; discriminate | discriminate].
Qed.

(** X12: whenever [options] is an array the shuffle returns as many options as
    it was given, and a list of no or one option comes back unchanged: the
    loop makes no draw. *)
Theorem shuffle_of_at_most_one_option (rand : nat -> draw) (q : value) (options : list value) :
  get_opt q "options" = VArr options ->
  exists shuffled options',
    shuffleOptionsAndAnswer rand q = Ok shuffled /\
    get_opt shuffled "options" = VArr options' /\
    length options' = length options /\
    (length options <= 1 -> options' = options).
Proof.
  intros Ho. assert (Hq : exists fs, q = VObj fs) by (destruct q; try discriminate Ho; eauto).
  destruct Hq as [fs ->].
  destruct (shuffled_options rand fs options Ho) as (s & o' & Hs & Ho' & Eo & _ & Hp).
  exists s, o'. split; [assumption|]. split; [assumption|]. split; [now rewrite Hp|].
  intros Hle. rewrite Eo. unfold shuffled_tagged. rewrite length_imap.
  replace (length options - 1) with 0 by lia. simpl. apply text_imap_Tagged.
Qed.

Lemma shuffle_of_at_most_one_option_witness :
  exists shuffled options',
    shuffleOptionsAndAnswer halves (VObj [(lit "options", VArr [VStr (lit "only")])])
      = Ok shuffled /\
    get_opt shuffled "options" = VArr options' /\
    options' = [VStr (lit "only")].
Proof.
  destruct (shuffle_of_at_most_one_option halves
              (VObj [(lit "options", VArr [VStr (lit "only")])]) [VStr (lit "only")] eq_refl)
    as (shuffled & options' & Hs & Ho & _ & Hsame).
  exists shuffled, options'. split; [exact Hs|]. split; [exact Ho|].
  apply Hsame. simpl. lia.
Defined.


(** X13: the verdict depends on [text], [options], [correctAnswer] and
    [explanation] only: two values that agree on these four get the same
    verdict, whatever else they hold. *)
Theorem validateQuestionFormat_reads_four_fields (q q' : value) :
  Forall (fun name => get_opt q name = get_opt q' name)
    ["text"; "options"; "correctAnswer"; "explanation"]%string ->
  outcome (validateQuestionFormat q) = outcome (validateQuestionFormat q').
Proof.
  intros H. rewrite !list.Forall_cons in H. destruct H as (Ht & Ho & Hc & He & _).
  rewrite !validateQuestionFormat_outcome. f_equal.
  assert (Hiff : code_valid q <-> code_valid q').
  { split; intros [H1 H2 H3 H4 H5]; split;
      rewrite ?Ht, ?Ho, ?Hc, ?He in *; try assumption;
      rewrite <- ?Ht, <- ?Ho, <- ?Hc, <- ?He in *; assumption. }
  destruct (passes q) eqn:E1, (passes q') eqn:E2; try reflexivity.
  - apply passes_code_valid, Hiff, passes_code_valid in E1. congruence.
  - apply passes_code_valid, Hiff, passes_code_valid in E2. congruence.
Qed.

Lemma validateQuestionFormat_reads_four_fields_witness :
  outcome (validateQuestionFormat (sample_question (VNum (num_of_nat 1)))) =
  outcome (validateQuestionFormat
             (mapped_question no_text (lit "sums") JEE 0
                (sample_question (VNum (num_of_nat 1))))).
Proof.
  apply (validateQuestionFormat_reads_four_fields (sample_question (VNum (num_of_nat 1)))
           (mapped_question no_text (lit "sums") JEE 0
              (sample_question (VNum (num_of_nat 1))))).
  repeat constructor.
Defined.


(** ** getPlaygroundQuestion *)

Lemma format_question_fields (ToString : value -> str) (shuffled parsed : value)
    (topic : str) (level : number) (userContext formatted : value) :
  format_question ToString shuffled parsed topic level userContext = Ok formatted ->
  get_opt formatted "text" = or_else (get_opt shuffled "text") (VStr []) /\
  get_opt formatted "options" = get_opt shuffled "options" /\
  get_opt formatted "correctAnswer" = get_opt shuffled "correctAnswer" /\
  get_opt (get_opt formatted "explanation") "correct" =
    or_else (get_opt (get_opt shuffled "explanation") "correct")
      (VStr (lit "Correct answer explanation")) /\
  get_opt (get_opt formatted "explanation") "key_point" =
    or_else (get_opt (get_opt shuffled "explanation") "key_point")
      (VStr (lit "Key learning point")) /\
  get_opt formatted "difficulty" = VNum level /\
  get_opt formatted "topic" = VStr topic /\
  get_opt formatted "subtopic" = or_else (get_opt parsed "subtopic") (VStr topic) /\
  get_opt formatted "questionType" = VStr (lit "conceptual") /\
  get_opt formatted "ageGroup" = VStr (to_string ToString (get_opt userContext "age")).
Proof.
  unfold format_question. intros H.
  destruct (nullish shuffled) eqn:Hs; [destruct shuffled; discriminate|].
  rewrite !(get_get_opt shuffled) in H by assumption.
  destruct (nullish parsed) eqn:Hp; [destruct parsed; discriminate|].
  rewrite !(get_get_opt parsed) in H by assumption.
  destruct (nullish userContext) eqn:Hu; [destruct userContext; discriminate|].
  rewrite !(get_get_opt userContext) in H by assumption.
  unfold mbind, result_bind, toString_method, convert in H.
  destruct (nullish (get_opt userContext "age")); [discriminate|].
  destruct (convertible (get_opt userContext "age")); [|discriminate].
  injection H as <-. repeat split.
Qed.



Section Playground.
Variable fetch : string -> value -> fetch_outcome.
Variable JSON_parse : str -> option value.
Variable ToString : value -> str.

Lemma getPlaygroundQuestion_Ok_inv (rand : nat -> draw) (topic : str) (level : number)
    (userContext returned : value) :
  outcome (getPlaygroundQuestion fetch JSON_parse ToString rand topic level userContext)
    = Ok returned ->
  exists content question shuffled,
    outcome (makeApiRequest fetch "playground" (playground_payload topic level userContext))
      = Ok content /\
    truthy content = true /\
    parse_if_string JSON_parse content = Ok question /\
    shuffleOptionsAndAnswer rand question = Ok shuffled /\
    format_question ToString shuffled question topic level userContext = Ok returned /\
    passes returned = true.
Proof.
  unfold getPlaygroundQuestion. rewrite outcome_try_catch.
  destruct (outcome (_ ≫= _)) as [r|e] eqn:E; [|discriminate].
  intros H; inversion H; subst r; clear H.
  apply outcome_bind_Ok in E as (content & Hc & E).
  destruct (truthy content) eqn:Ht; simpl in E; [|discriminate E].
  apply outcome_bind_Ok in E as (question & Hq & E).
  rewrite outcome_try_catch in Hq. unfold lift in Hq; simpl in Hq.
  destruct (parse_if_string JSON_parse content) as [q'|] eqn:Hparse; [|discriminate Hq].
  injection Hq as ->.
  apply outcome_bind_Ok in E as (shuffled & Hs & E). unfold lift in Hs; simpl in Hs.
  apply outcome_bind_Ok in E as (formatted & Hf & E). unfold lift in Hf; simpl in Hf.
  apply outcome_bind_Ok in E as (valid & Hv & E).
  rewrite validateQuestionFormat_outcome in Hv. injection Hv as <-.
  destruct (passes formatted) eqn:Hp; simpl in E; [|discriminate E].
  injection E as <-.
  exists content, question, shuffled. auto 10.
Qed.

(** X14: whatever [getPlaygroundQuestion] returns meets the format with
    [correctAnswer] an integer in 0..3 (the shuffle computes it as an index),
    and carries the call's level and topic, the question type "conceptual"
    and the string of the user's age. *)
Theorem getPlaygroundQuestion_returns_spec_valid (rand : nat -> draw) (topic : str)
    (level : number) (userContext returned : value) :
  outcome (getPlaygroundQuestion fetch JSON_parse ToString rand topic level userContext)
    = Ok returned ->
  spec_valid returned /\
  get_opt returned "difficulty" = VNum level /\
  get_opt returned "topic" = VStr topic /\
  get_opt returned "questionType" = VStr (lit "conceptual") /\
  get_opt returned "ageGroup" = VStr (to_string ToString (get_opt userContext "age")).
Proof.
  intros Hr.
  destruct (getPlaygroundQuestion_Ok_inv rand topic level userContext returned Hr)
    as (content & question & shuffled & _ & _ & _ & Hs & Hf & Hp).
  destruct (format_question_fields _ _ _ _ _ _ _ Hf)
    as (_ & _ & Hca & _ & _ & Hd & Ht & _ & Hq & Ha).
  split; [|auto].
  apply passes_code_valid in Hp. destruct Hp as [H1 H2 (n & Hn & Hr3) H4 H5].
  split; try assumption. exists n. split; [assumption|]. split; [|assumption].
  destruct (shuffle_Ok_inv rand question shuffled Hs) as (fs & options & -> & Ho).
  destruct (shuffled_options rand fs options Ho) as (s' & o' & Hs' & _ & _ & Hca' & _).
  assert (s' = shuffled) by congruence. subst s'.
  rewrite Hca, Hca' in Hn. injection Hn as <-. apply is_integer_num_of_Z.
Qed.

(** X15: the question [getPlaygroundQuestion] returns has the options of the
    question the API sent, permuted, and its [correctAnswer] is an index of
    the option that was the correct one there. *)
Theorem getPlaygroundQuestion_returns_the_correct_option (rand : nat -> draw) (topic : str)
    (level : number) (userContext content question returned : value) :
  outcome (makeApiRequest fetch "playground" (playground_payload topic level userContext))
    = Ok content ->
  parse_if_string JSON_parse content = Ok question ->
  outcome (getPlaygroundQuestion fetch JSON_parse ToString rand topic level userContext)
    = Ok returned ->
  exists options options' answer,
    answer_of question options answer /\
    answer_of returned options' answer /\ options' ≡ₚ options.
Proof.
  intros Hreq Hparse Hr.
  destruct (getPlaygroundQuestion_Ok_inv rand topic level userContext returned Hr)
    as (content' & question' & shuffled & Hreq' & _ & Hparse' & Hs & Hf & Hp).
  assert (content' = content) by congruence. subst content'.
  assert (question' = question) by congruence. subst question'.
  destruct (format_question_fields _ _ _ _ _ _ _ Hf) as (_ & Ho & Hca & _).
  apply passes_code_valid in Hp. destruct Hp as [_ _ (n & Hn & Hlt & _) _ _].
  rewrite Hca in Hn.
  destruct (shuffle_nonnegative_answer_of rand question shuffled n Hs Hn Hlt)
    as (options & answer & Ha).
  destruct (shuffle_keeps rand question options answer Ha) as (s' & options' & Hs' & Ha' & Hperm).
  assert (s' = shuffled) by congruence. subst s'.
  exists options, options', answer. split; [assumption|]. split; [|assumption].
  destruct Ha' as [Ho' (k & Hk & Hans)].
  split; [congruence|]. exists k. rewrite Hca. auto.
Qed.

(** X16: a body without an [options] array makes [getPlaygroundQuestion] fail
    in the shuffle, before any validation: a TypeError is logged and "Failed
    to generate valid question" thrown. *)
Theorem getPlaygroundQuestion_options_not_an_array (rand : nat -> draw) (topic : str)
    (level : number) (userContext content question : value) :
  outcome (makeApiRequest fetch "playground" (playground_payload topic level userContext))
    = Ok content ->
  truthy content = true ->
  parse_if_string JSON_parse content = Ok question ->
  is_array (get_opt question "options") = false ->
  getPlaygroundQuestion fetch JSON_parse ToString rand topic level userContext =
    Run [LogError "Question generation error:" TypeError] (Throw FailedToGenerateValidQuestion).
Proof.
  intros Hreq Ht Hparse Ho. unfold getPlaygroundQuestion.
  rewrite (makeApiRequest_Ok _ _ _ _ Hreq).
  unfold mbind at 1, M_bind. simpl. rewrite Ht. simpl.
  unfold lift. simpl. rewrite Hparse. simpl.
  assert (Hs : shuffleOptionsAndAnswer rand question = Throw TypeError).
  { unfold shuffleOptionsAndAnswer. destruct question as [| | | | | |fs]; try reflexivity.
    simpl in *. destruct (default VUndefined (field (lit "options") fs));
      try reflexivity; discriminate. }
  rewrite Hs. reflexivity.
Qed.

End Playground.

Lemma getPlaygroundQuestion_returns_spec_valid_witness :
  spec_valid
    (returned_or VUndefined
       (getPlaygroundQuestion (always 200 (sample_question (VNum (num_of_nat 1))))
          no_parse no_text halves (lit "sums") (num_of_nat 1) sixteen)).
Proof.
  exact (proj1 (getPlaygroundQuestion_returns_spec_valid
                  (always 200 (sample_question (VNum (num_of_nat 1)))) no_parse no_text
                  halves (lit "sums") (num_of_nat 1) sixteen
                  (returned_or VUndefined
                     (getPlaygroundQuestion (always 200 (sample_question (VNum (num_of_nat 1))))
                        no_parse no_text halves (lit "sums") (num_of_nat 1) sixteen))
                  eq_refl)).
Defined.

Lemma getPlaygroundQuestion_returns_the_correct_option_witness :
  exists options options' answer,
    answer_of (sample_question (VNum (num_of_nat 1))) options answer /\
    answer_of
      (returned_or VUndefined
         (getPlaygroundQuestion (always 200 (sample_question (VNum (num_of_nat 1))))
            no_parse no_text halves (lit "sums") (num_of_nat 1) sixteen))
      options' answer /\
    options' ≡ₚ options.
Proof.
  exact (getPlaygroundQuestion_returns_the_correct_option
           (always 200 (sample_question (VNum (num_of_nat 1)))) no_parse no_text
           halves (lit "sums") (num_of_nat 1) sixteen
           (sample_question (VNum (num_of_nat 1))) (sample_question (VNum (num_of_nat 1)))
           (returned_or VUndefined
              (getPlaygroundQuestion (always 200 (sample_question (VNum (num_of_nat 1))))
                 no_parse no_text halves (lit "sums") (num_of_nat 1) sixteen))
           eq_refl eq_refl eq_refl).
Defined.

Lemma getPlaygroundQuestion_options_not_an_array_witness :
  getPlaygroundQuestion (always 200 explore_abc) no_parse no_text halves (lit "sums")
    (num_of_nat 1) sixteen =
    Run [LogError "Question generation error:" TypeError] (Throw FailedToGenerateValidQuestion).
Proof.
  exact (getPlaygroundQuestion_options_not_an_array (always 200 explore_abc) no_parse no_text
           halves (lit "sums") (num_of_nat 1) sixteen explore_abc explore_abc
           eq_refl eq_refl eq_refl eq_refl).
Defined.



(** ** The three operations over makeApiRequest *)

Section Operations.
Variable fetch : string -> value -> fetch_outcome.
Variable JSON_parse : str -> option value.
Variable ToString : value -> str.
Variables (rand : nat -> draw) (query topic : str) (level : number) (userContext : value)
          (examType : exam).

(** X18: when no request returns, each of the three operations logs the cause
    of the request's failure, then "Failed to make API request" under its own
    label, and throws its own error; only [getTestQuestions] passes the
    message on. *)
Theorem operations_wrap_request_failure :
  (forall endpoint payload content,
     outcome (makeApiRequest fetch endpoint payload) <> Ok content) ->
  getExploreContent fetch JSON_parse ToString query userContext =
    Run [LogError "API request error:"
           (request_failure (fetch "explore"%string (explore_payload query userContext)));
         LogError "Explore content error:" FailedToMakeApiRequest]
        (Throw FailedToGenerateExploreContent) /\
  getPlaygroundQuestion fetch JSON_parse ToString rand topic level userContext =
    Run [LogError "API request error:"
           (request_failure
              (fetch "playground"%string (playground_payload topic level userContext)));
         LogError "Question generation error:" FailedToMakeApiRequest]
        (Throw FailedToGenerateValidQuestion) /\
  getTestQuestions fetch JSON_parse ToString topic examType =
    Run [LogError "API request error:"
           (request_failure (fetch "test"%string (test_payload topic examType)));
         LogError "Test generation error:" FailedToMakeApiRequest]
        (Throw (FailedToGenerateTestQuestions FailedToMakeApiRequest)).
Proof.
  intros Hno.
  unfold getExploreContent, getPlaygroundQuestion, getTestQuestions.
  rewrite !makeApiRequest_Throw by apply Hno. repeat split.
Qed.



End Operations.

Lemma operations_wrap_request_failure_witness :
  getTestQuestions unreachable no_parse no_text (lit "sums") JEE =
    Run [LogError "API request error:" NetworkError;
         LogError "Test generation error:" FailedToMakeApiRequest]
        (Throw (FailedToGenerateTestQuestions FailedToMakeApiRequest)).
Proof.
  apply (operations_wrap_request_failure unreachable no_parse no_text halves [] (lit "sums")
           (num_of_nat 1) sixteen JEE).
  intros endpoint payload content H. discriminate H.
Defined.




Section Encoding.
Variables fetch fetch' : string -> value -> fetch_outcome.
Variable JSON_parse : str -> option value.
Variable ToString : value -> str.
Variables (rand : nat -> draw) (query topic : str) (level : number) (userContext : value)
          (examType : exam).


End Encoding.



(** ** streamExploreContent *)


Lemma includes_dashes_spec (s : str) :
  includes_dashes s = true <-> exists a b, s = a ++ lit "---" ++ b.
Proof.
  split.
  - induction s as [|c1 tl IH]; [discriminate|].
    destruct tl as [|c2 [|c3 rest]]; try discriminate.
    change (includes_dashes (c1 :: c2 :: c3 :: rest))
      with (((c1 =? 45) && (c2 =? 45) && (c3 =? 45))%N || includes_dashes (c2 :: c3 :: rest)).
    intros [H|H]%orb_true_iff.
    + apply andb_true_iff in H as [H E3]. apply andb_true_iff in H as [E1 E2].
      apply N.eqb_eq in E1, E2, E3. subst. now exists [], rest.
    + destruct (IH H) as (a & b & E). exists (c1 :: a), b. simpl. now rewrite E.
  - intros (a & b & ->). induction a as [|c1 a IH]; [reflexivity|].
    change ((c1 :: a) ++ lit "---" ++ b) with (c1 :: (a ++ lit "---" ++ b)).
    remember (a ++ lit "---" ++ b) as tl eqn:E.
    destruct tl as [|c2 [|c3 rest]]; try discriminate IH.
    change (includes_dashes (c1 :: c2 :: c3 :: rest))
      with (((c1 =? 45) && (c2 =? 45) && (c3 =? 45))%N || includes_dashes (c2 :: c3 :: rest)).
    rewrite IH. apply orb_true_r.
Qed.

Lemma split_dashes_nonempty (s : str) :
  forall cur, exists p0 rest, split_dashes cur s = p0 :: rest.
Proof.
  induction s as [|c1 tl IH]; intros cur; simpl; [eauto|].
  destruct tl as [|c2 [|c3 rest]]; try apply IH.
  destruct ((c1 =? 45) && (c2 =? 45) && (c3 =? 45))%N; [eauto | apply IH].
Qed.

Lemma split_without_dashes (s : str) :
  forall cur, includes_dashes s = false -> split_dashes cur s = [reverse cur ++ s].
Proof.
  induction s as [|c1 tl IH]; intros cur Hno.
  - simpl. now rewrite app_nil_r.
  - assert (Hrec : includes_dashes tl = false ->
                   split_dashes (c1 :: cur) tl = [reverse cur ++ c1 :: tl]).
    { intros Htl. rewrite (IH (c1 :: cur) Htl), reverse_cons, <- app_assoc. reflexivity. }
    destruct tl as [|c2 [|c3 rest]]; try (apply Hrec; reflexivity).
    change (includes_dashes (c1 :: c2 :: c3 :: rest))
      with (((c1 =? 45) && (c2 =? 45) && (c3 =? 45))%N || includes_dashes (c2 :: c3 :: rest))
      in Hno.
    apply orb_false_iff in Hno as [H45 Htl].
    change (split_dashes cur (c1 :: c2 :: c3 :: rest))
      with (if ((c1 =? 45) && (c2 =? 45) && (c3 =? 45))%N
            then reverse cur :: split_dashes [] rest
            else split_dashes (c1 :: cur) (c2 :: c3 :: rest)).
    rewrite H45. apply Hrec, Htl.
Qed.

Lemma split_at_first_dashes (a b : str) :
  forall cur, includes_dashes (a ++ lit "--") = false ->
  split_dashes cur (a ++ lit "---" ++ b) = (reverse cur ++ a) :: split_dashes [] b.
Proof.
  induction a as [|c1 a IH]; intros cur Hno.
  - simpl. now rewrite app_nil_r.
  - assert (Hrec : includes_dashes (a ++ lit "--") = false ->
                   split_dashes (c1 :: cur) (a ++ lit "---" ++ b) =
                   (reverse cur ++ c1 :: a) :: split_dashes [] b).
    { intros Ha. rewrite (IH (c1 :: cur) Ha), reverse_cons, <- app_assoc. reflexivity. }
    assert (Hshape : exists c2 c3 rest rest',
               a ++ lit "---" ++ b = c2 :: c3 :: rest /\ a ++ lit "--" = c2 :: c3 :: rest').
    { destruct a as [|x [|y a]]; simpl; eauto 10. }
    destruct Hshape as (c2 & c3 & rest & rest' & E & E').
    change ((c1 :: a) ++ lit "---" ++ b) with (c1 :: (a ++ lit "---" ++ b)).
    change ((c1 :: a) ++ lit "--") with (c1 :: (a ++ lit "--")) in Hno.
    rewrite E in *. rewrite E' in *.
    change (includes_dashes (c1 :: c2 :: c3 :: rest'))
      with (((c1 =? 45) && (c2 =? 45) && (c3 =? 45))%N || includes_dashes (c2 :: c3 :: rest'))
      in Hno.
    apply orb_false_iff in Hno as [H45 Ha].
    change (split_dashes cur (c1 :: c2 :: c3 :: rest))
      with (if ((c1 =? 45) && (c2 =? 45) && (c3 =? 45))%N
            then reverse cur :: split_dashes [] rest
            else split_dashes (c1 :: cur) (c2 :: c3 :: rest)).
    rewrite H45. apply Hrec, Ha.
Qed.

Lemma gemini_parts_value (data : value) :
  nullish data = false -> truthy (parts_of data) = true ->
  gemini_parts data = Ok (parts_of data).
Proof.
  intros Hn Ht. destruct (gemini_parts_truthy data Hn) as (parts & Hg & Hp).
  unfold gemini_parts in *. rewrite (get_get_opt data) in * by assumption.
  unfold mbind, result_bind in *.
  destruct (truthy (get_opt data "candidates")) eqn:E; [reflexivity|].
  injection Hg as <-. congruence.
Qed.

Lemma gemini_text_string (data : value) (content : str) :
  gemini_text data = VStr content ->
  nullish data = false /\ truthy (parts_of data) = true /\
  get (index0 (parts_of data)) "text" = Ok (VStr content).
Proof.
  unfold gemini_text. intros H.
  assert (Hi : nullish (index0 (parts_of data)) = false)
    by (destruct (index0 (parts_of data)); try discriminate H; reflexivity).
  rewrite (get_get_opt _ _ Hi), H. split; [|split; [|reflexivity]].
  - destruct data; try reflexivity; discriminate H.
  - destruct (parts_of data) as [| | | |[|c s]|[|x l]|]; try discriminate Hi; reflexivity.
Qed.

(** The [try] block around [JSON.parse] never raises and logs parse errors
    only. *)
Lemma related_returns (JSON_parse : str -> option value) (jsonStr : str) :
  exists found, outcome (related JSON_parse jsonStr) = Ok found /\
    Forall (fun ev => is_chunk ev = false) (trace (related JSON_parse jsonStr)).
Proof.
  unfold related. destruct (JSON_parse jsonStr) as [parsed|].
  - destruct (_ ≫= _) as [topics|e]; [|simpl; eexists; split; [reflexivity | repeat constructor]].
    destruct (_ ≫= _) as [questions|e]; simpl; eexists;
      (split; [reflexivity | repeat constructor]).
  - simpl. eexists. split; [reflexivity | repeat constructor].
Qed.

Lemma rename_fields_map (a x b y c z : string) (items : list value) :
  Forall (fun item => nullish item = false) items ->
  rename_fields a x b y c z items = Ok (renamed a x b y c z <$> items).
Proof.
  induction 1 as [|item rest Hitem _ IH]; [reflexivity|].
  simpl. rewrite !(get_get_opt item) by assumption. simpl. rewrite IH. reflexivity.
Qed.

Lemma rename_fields_null (a x b y c z : string) (items : list value) :
  Exists (fun item => nullish item = true) items ->
  rename_fields a x b y c z items = Throw TypeError.
Proof.
  induction 1 as [item rest Hitem|item rest _ IH].
  - destruct item; try discriminate Hitem; reflexivity.
  - simpl. rewrite IH. destruct item; reflexivity.
Qed.

Section Stream.

Variable fetch : string -> value -> fetch_outcome.
Variable JSON_parse : str -> option value.
Variables (query : str) (userContext chatHistory : value).

(** The run of a call whose response is 2xx and holds a string at
    [candidates[0].content.parts[0].text]. *)
Lemma streamExploreContent_text_run (r : response) (data : value) (content : str) :
  fetch "streamExplore"%string (stream_payload query userContext chatHistory) = Resolves r ->
  ok r = true -> body r = Some data ->
  gemini_text data = VStr content ->
  let pieces := trim <$> split_dashes [] content in
  let found := if truthy (VStr (default [] (pieces !! 1)))
               then related JSON_parse (default [] (pieces !! 1)) else mret ([], []) in
  exists topics questions,
    outcome found = Ok (topics, questions) /\
    streamExploreContent fetch JSON_parse query userContext chatHistory =
      Run (trace found ++
                [OnChunk (from_option VStr VUndefined (pieces !! 0))
                         (nonempty_or_undefined topics) (nonempty_or_undefined questions)])
               (Ok tt).
Proof.
  intros Hf Hok Hb Ht pieces found.
  destruct (gemini_text_string _ _ Ht) as (Hn & Hp & Hg).
  assert (Hfound : exists res, outcome found = Ok res).
  { subst found. destruct (truthy (VStr _)); [|now eexists].
    destruct (related_returns JSON_parse (default [] (pieces !! 1))) as (res & H & _). eauto. }
  destruct Hfound as ([topics questions] & Hfound). exists topics, questions.
  split; [assumption|].
  unfold streamExploreContent. rewrite Hf.
  unfold mbind at 1 2 3, M_bind at 1 2 3, lift. simpl.
  rewrite (ok_not_429 r Hok), Hok. simpl.
  unfold json. rewrite Hb. simpl. rewrite (gemini_parts_value data Hn Hp). simpl.
  rewrite Hp, Hg. unfold M_bind at 1 2. simpl.
  subst found pieces. simpl in Hfound |- *.
  match type of Hfound with outcome ?m = _ => destruct m as [tr o] end.
  simpl in Hfound. subst o. reflexivity.
Qed.


(** X22: a text without the separator is delivered trimmed, with neither
    topics nor questions, and nothing is logged. *)
Theorem streamExploreContent_text_without_separator
    (r : response) (data : value) (content : str) :
  fetch "streamExplore"%string (stream_payload query userContext chatHistory) = Resolves r ->
  ok r = true -> body r = Some data ->
  gemini_text data = VStr content ->
  includes_dashes content = false ->
  streamExploreContent fetch JSON_parse query userContext chatHistory =
    Run [OnChunk (VStr (trim content)) VUndefined VUndefined] (Ok tt).
Proof.
  intros Hf Hok Hb Ht Hno.
  destruct (streamExploreContent_text_run r data content Hf Hok Hb Ht)
    as (topics & questions & Hfound & ->).
  rewrite (split_without_dashes content [] Hno) in *. simpl in *.
  injection Hfound as <- <-. reflexivity.
Qed.

(** The run of a call whose text is [text ++ "---" ++ json] with one
    separator. *)
Lemma streamExploreContent_separator_run
    (r : response) (data : value) (text json : str) :
  fetch "streamExplore"%string (stream_payload query userContext chatHistory) = Resolves r ->
  ok r = true -> body r = Some data ->
  gemini_text data = VStr (text ++ lit "---" ++ json) ->
  includes_dashes (text ++ lit "--") = false -> includes_dashes json = false ->
  let found := if truthy (VStr (trim json))
               then related JSON_parse (trim json) else mret ([], []) in
  exists topics questions,
    outcome found = Ok (topics, questions) /\
    streamExploreContent fetch JSON_parse query userContext chatHistory =
      Run (trace found ++
                [OnChunk (VStr (trim text))
                         (nonempty_or_undefined topics) (nonempty_or_undefined questions)])
               (Ok tt).
Proof.
  intros Hf Hok Hb Ht Htext Hjson.
  pose proof (streamExploreContent_text_run r data _ Hf Hok Hb Ht) as H.
  rewrite (split_at_first_dashes text json [] Htext) in H.
  rewrite (split_without_dashes json [] Hjson) in H. exact H.
Qed.


(** X24: with a JSON part whose [topics] and [questions] hold no null entry,
    the callback gets every entry of both, in order, renamed to
    [{topic, type, reason}] and [{question, type, context}]; a property that
    is no array counts as empty, and an empty list is passed as undefined. *)
Theorem streamExploreContent_renames_topics_and_questions
    (r : response) (data : value) (text json : str) (parsed : value) :
  fetch "streamExplore"%string (stream_payload query userContext chatHistory) = Resolves r ->
  ok r = true -> body r = Some data ->
  gemini_text data = VStr (text ++ lit "---" ++ json) ->
  includes_dashes (text ++ lit "--") = false -> includes_dashes json = false ->
  trim json <> [] -> JSON_parse (trim json) = Some parsed -> nullish parsed = false ->
  Forall (fun item => nullish item = false) (items_of (get_opt parsed "topics")) ->
  Forall (fun item => nullish item = false) (items_of (get_opt parsed "questions")) ->
  streamExploreContent fetch JSON_parse query userContext chatHistory =
    Run [OnChunk (VStr (trim text))
                (nonempty_or_undefined
                   (renamed "topic" "name" "type" "type" "reason" "detail" <$>
                    items_of (get_opt parsed "topics")))
                (nonempty_or_undefined
                   (renamed "question" "text" "type" "type" "context" "detail" <$>
                    items_of (get_opt parsed "questions")))]
             (Ok tt).
Proof.
  intros Hf Hok Hb Ht Htext Hjson Hne Hparse Hn Htopics Hquestions.
  destruct (streamExploreContent_separator_run r data text json Hf Hok Hb Ht Htext Hjson)
    as (topics & questions & Hfound & ->).
  assert (Htruthy : truthy (VStr (trim json)) = true)
    by (simpl; destruct (trim json); [contradiction | reflexivity]).
  rewrite Htruthy in *. unfold related in *. rewrite Hparse in *.
  rewrite !(get_get_opt parsed) in * by assumption. simpl in *.
  destruct (get_opt parsed "topics") as [| | | | |ts|]; simpl in *;
    rewrite ?(rename_fields_map _ _ _ _ _ _ _ Htopics) in *;
    (destruct (get_opt parsed "questions") as [| | | | |qs|]; simpl in *;
     rewrite ?(rename_fields_map _ _ _ _ _ _ _ Hquestions) in *;
     simpl in *; injection Hfound as <- <-; reflexivity).
Qed.

(** X25: a null entry among the topics loses the questions too, whatever they
    are: the TypeError is logged and the text delivered alone. *)
Theorem streamExploreContent_null_topic_drops_questions
    (r : response) (data : value) (text json : str) (parsed : value) (topics : list value) :
  fetch "streamExplore"%string (stream_payload query userContext chatHistory) = Resolves r ->
  ok r = true -> body r = Some data ->
  gemini_text data = VStr (text ++ lit "---" ++ json) ->
  includes_dashes (text ++ lit "--") = false -> includes_dashes json = false ->
  trim json <> [] -> JSON_parse (trim json) = Some parsed ->
  get_opt parsed "topics" = VArr topics ->
  Exists (fun item => nullish item = true) topics ->
  streamExploreContent fetch JSON_parse query userContext chatHistory =
    Run [LogError "JSON parse error:" TypeError;
              OnChunk (VStr (trim text)) VUndefined VUndefined] (Ok tt).
Proof.
  intros Hf Hok Hb Ht Htext Hjson Hne Hparse Htopics Hnull.
  destruct (streamExploreContent_separator_run r data text json Hf Hok Hb Ht Htext Hjson)
    as (ts & qs & Hfound & ->).
  assert (Hn : nullish parsed = false) by (destruct parsed; try discriminate Htopics; reflexivity).
  assert (Htruthy : truthy (VStr (trim json)) = true)
    by (simpl; destruct (trim json); [contradiction | reflexivity]).
  rewrite Htruthy in *. unfold related in *. rewrite Hparse in *.
  rewrite !(get_get_opt parsed) in * by assumption. rewrite Htopics in *. simpl in *.
  rewrite (rename_fields_null _ _ _ _ _ _ _ Hnull) in *. simpl in *.
  injection Hfound as <- <-. reflexivity.
Qed.

(** X26: a null entry among the questions keeps the topics: the TypeError is
    logged, the text and the renamed topics are delivered without
    questions. *)
Theorem streamExploreContent_null_question_keeps_topics
    (r : response) (data : value) (text json : str) (parsed : value)
    (questions : list value) :
  fetch "streamExplore"%string (stream_payload query userContext chatHistory) = Resolves r ->
  ok r = true -> body r = Some data ->
  gemini_text data = VStr (text ++ lit "---" ++ json) ->
  includes_dashes (text ++ lit "--") = false -> includes_dashes json = false ->
  trim json <> [] -> JSON_parse (trim json) = Some parsed ->
  Forall (fun item => nullish item = false) (items_of (get_opt parsed "topics")) ->
  get_opt parsed "questions" = VArr questions ->
  Exists (fun item => nullish item = true) questions ->
  streamExploreContent fetch JSON_parse query userContext chatHistory =
    Run [LogError "JSON parse error:" TypeError;
              OnChunk (VStr (trim text))
                (nonempty_or_undefined
                   (renamed "topic" "name" "type" "type" "reason" "detail" <$>
                    items_of (get_opt parsed "topics")))
                VUndefined]
             (Ok tt).
Proof.
  intros Hf Hok Hb Ht Htext Hjson Hne Hparse Htopics Hquestions Hnull.
  destruct (streamExploreContent_separator_run r data text json Hf Hok Hb Ht Htext Hjson)
    as (ts & qs & Hfound & ->).
  assert (Hn : nullish parsed = false)
    by (destruct parsed; try discriminate Hquestions; reflexivity).
  assert (Htruthy : truthy (VStr (trim json)) = true)
    by (simpl; destruct (trim json); [contradiction | reflexivity]).
  rewrite Htruthy in *. unfold related in *. rewrite Hparse in *.
  rewrite !(get_get_opt parsed) in * by assumption. rewrite Hquestions in *. simpl in *.
  rewrite (rename_fields_null _ _ _ _ _ _ _ Hnull) in *.
  destruct (get_opt parsed "topics") as [| | | | |ts'|]; simpl in *;
    rewrite ?(rename_fields_map _ _ _ _ _ _ _ Htopics) in *; simpl in *;
    injection Hfound as <- <-; reflexivity.
Qed.

(** X27: on status 429 with a JSON body whose [retryAfter] is a number the
    rate-limit alert is raised, and then the call fails like on any other
    status outside 200..299: here the test for 429 comes first. *)
Theorem streamExploreContent_429_alerts_then_fails (r : response) (data : value) :
  fetch "streamExplore"%string (stream_payload query userContext chatHistory) = Resolves r ->
  status r = 429%Z -> body r = Some data ->
  is_number (get_opt data "retryAfter") = true ->
  streamExploreContent fetch JSON_parse query userContext chatHistory =
    Run [Alert (get_opt data "retryAfter");
              LogError "Stream error:" (StreamRequestFailed 429)]
             (Throw FailedToStreamContent).
Proof.
  intros Hf Hs Hb Hnum.
  assert (Hn : nullish data = false) by (destruct data; try discriminate Hnum; reflexivity).
  unfold streamExploreContent. rewrite Hf.
  unfold mbind, M_bind, lift. simpl. unfold ok, json. rewrite Hs, Hb. simpl.
  rewrite (get_get_opt data _ Hn). unfold alert_retry_after.
  destruct (get_opt data "retryAfter"); try discriminate Hnum. reflexivity.
Qed.

(** X28: on any other status outside 200..299 there is no alert and no
    callback: the status is logged and "Failed to stream content" thrown. *)
Theorem streamExploreContent_not_ok_fails (r : response) :
  fetch "streamExplore"%string (stream_payload query userContext chatHistory) = Resolves r ->
  ok r = false -> status r <> 429%Z ->
  streamExploreContent fetch JSON_parse query userContext chatHistory =
    Run [LogError "Stream error:" (StreamRequestFailed (status r))]
             (Throw FailedToStreamContent).
Proof.
  intros Hf Hok Hs. unfold streamExploreContent. rewrite Hf.
  unfold mbind, M_bind, lift. simpl.
  destruct (Z.eqb_spec (status r) 429) as [|_]; [contradiction|]. rewrite Hok. reflexivity.
Qed.

(** X29: parts without a string at [parts[0].text] make the call fail with a
    TypeError as the logged cause, where parts that are missing altogether
    make it return silently. *)
Theorem streamExploreContent_text_not_a_string_fails (r : response) (data : value) :
  fetch "streamExplore"%string (stream_payload query userContext chatHistory) = Resolves r ->
  ok r = true -> body r = Some data -> nullish data = false ->
  truthy (parts_of data) = true -> is_string (gemini_text data) = false ->
  streamExploreContent fetch JSON_parse query userContext chatHistory =
    Run [LogError "Stream error:" TypeError] (Throw FailedToStreamContent).
Proof.
  intros Hf Hok Hb Hn Hp Hs. unfold streamExploreContent. rewrite Hf.
  unfold mbind, M_bind, lift. simpl. rewrite (ok_not_429 r Hok), Hok. simpl.
  unfold json. rewrite Hb. simpl. rewrite (gemini_parts_value data Hn Hp). simpl.
  rewrite Hp. unfold gemini_text in Hs.
  destruct (index0 (parts_of data)) as [| | | | | |fields] eqn:E; try reflexivity.
  simpl in *. destruct (field (lit "text") fields) as [[]|]; try reflexivity; discriminate Hs.
Qed.



End Stream.

Lemma streamExploreContent_text_without_separator_witness :
  streamExploreContent (always 200 (gemini (VStr (lit " Hello ")))) no_parse [] sixteen (VArr [])
    = Run [OnChunk (VStr (lit "Hello")) VUndefined VUndefined] (Ok tt).
Proof.
  exact (streamExploreContent_text_without_separator
           (always 200 (gemini (VStr (lit " Hello ")))) no_parse [] sixteen (VArr [])
           (Response 200 (Some (gemini (VStr (lit " Hello ")))))
           (gemini (VStr (lit " Hello "))) (lit " Hello ")
           eq_refl eq_refl eq_refl eq_refl eq_refl).
Defined.


Lemma streamExploreContent_renames_topics_and_questions_witness :
  streamExploreContent (always 200 gemini_hello) parse_T [] sixteen (VArr []) =
    Run [OnChunk (VStr (lit "Hello"))
           (VArr [VObj [(lit "topic", VStr (lit "X")); (lit "type", VStr (lit "t"));
                        (lit "reason", VStr (lit "d"))]])
           VUndefined]
        (Ok tt).
Proof.
  apply (streamExploreContent_renames_topics_and_questions
           (always 200 gemini_hello) parse_T [] sixteen (VArr [])
           (Response 200 (Some gemini_hello)) gemini_hello (lit "Hello") (lit "T")
           (default VUndefined (parse_T (lit "T")))
           eq_refl eq_refl eq_refl eq_refl eq_refl eq_refl);
    [discriminate | reflexivity | reflexivity | repeat constructor | constructor].
Defined.

Lemma streamExploreContent_null_topic_drops_questions_witness :
  streamExploreContent (always 200 gemini_hello) (parse_as null_topic) [] sixteen (VArr []) =
    Run [LogError "JSON parse error:" TypeError;
         OnChunk (VStr (lit "Hello")) VUndefined VUndefined] (Ok tt).
Proof.
  apply (streamExploreContent_null_topic_drops_questions
           (always 200 gemini_hello) (parse_as null_topic) [] sixteen (VArr [])
           (Response 200 (Some gemini_hello)) gemini_hello (lit "Hello") (lit "T")
           null_topic [VNull]
           eq_refl eq_refl eq_refl eq_refl eq_refl eq_refl);
    [discriminate | reflexivity | reflexivity | apply Exists_cons_hd; reflexivity].
Defined.

Lemma streamExploreContent_null_question_keeps_topics_witness :
  streamExploreContent (always 200 gemini_hello) (parse_as null_question) [] sixteen (VArr []) =
    Run [LogError "JSON parse error:" TypeError;
         OnChunk (VStr (lit "Hello"))
           (VArr [VObj [(lit "topic", VStr (lit "X")); (lit "type", VUndefined);
                        (lit "reason", VUndefined)]])
           VUndefined]
        (Ok tt).
Proof.
  apply (streamExploreContent_null_question_keeps_topics
           (always 200 gemini_hello) (parse_as null_question) [] sixteen (VArr [])
           (Response 200 (Some gemini_hello)) gemini_hello (lit "Hello") (lit "T")
           null_question [VNull]
           eq_refl eq_refl eq_refl eq_refl eq_refl eq_refl);
    [discriminate | reflexivity | repeat constructor | reflexivity
    | apply Exists_cons_hd; reflexivity].
Defined.

Lemma streamExploreContent_429_alerts_then_fails_witness :
  streamExploreContent (always 429 (VObj [(lit "retryAfter", VNum (num_of_nat 30))])) no_parse
    [] sixteen (VArr []) =
    Run [Alert (VNum (num_of_nat 30)); LogError "Stream error:" (StreamRequestFailed 429)]
        (Throw FailedToStreamContent).
Proof.
  exact (streamExploreContent_429_alerts_then_fails
           (always 429 (VObj [(lit "retryAfter", VNum (num_of_nat 30))])) no_parse
           [] sixteen (VArr [])
           (Response 429 (Some (VObj [(lit "retryAfter", VNum (num_of_nat 30))])))
           (VObj [(lit "retryAfter", VNum (num_of_nat 30))])
           eq_refl eq_refl eq_refl eq_refl).
Defined.

Lemma streamExploreContent_not_ok_fails_witness :
  streamExploreContent (always 500 VNull) no_parse [] sixteen (VArr []) =
    Run [LogError "Stream error:" (StreamRequestFailed 500)] (Throw FailedToStreamContent).
Proof.
  apply (streamExploreContent_not_ok_fails (always 500 VNull) no_parse [] sixteen (VArr [])
           (Response 500 (Some VNull)) eq_refl eq_refl).
  discriminate.
Defined.

Lemma streamExploreContent_text_not_a_string_fails_witness :
  streamExploreContent (always 200 (gemini (VNum (num_of_nat 5)))) no_parse [] sixteen (VArr [])
    = Run [LogError "Stream error:" TypeError] (Throw FailedToStreamContent).
Proof.
  exact (streamExploreContent_text_not_a_string_fails
           (always 200 (gemini (VNum (num_of_nat 5)))) no_parse [] sixteen (VArr [])
           (Response 200 (Some (gemini (VNum (num_of_nat 5))))) (gemini (VNum (num_of_nat 5)))
           eq_refl eq_refl eq_refl eq_refl eq_refl eq_refl).
Defined.
